(** * connection-details-go: a shallow embedding of [app.go]

    The program is one HTTP handler.  It collects request attributes,
    host attributes, a geolocation record and runtime statistics into a
    [ConnectionDetails] value and writes it as JSON or as an HTML page.

    Layout of this development:
    - Go values ([result], package [strings], [fmt], [path], [net],
      [textproto], [http]) as far as [app.go] uses them;
    - the data model and the three functions of [app.go]
      ([getNetworkInterfaces], [getPublicIPInfo], [connectionHandler])
      together with [main];
    - lemmas about the library layer, then the properties of the program. *)

From Stdlib Require Import Floats.
From Stdlib.Strings Require Import Ascii Byte.
From stdpp Require Import gmap strings list pretty.

(** ** Go values *)

(** A Go [error] is kept as its message. *)
Definition error := string.

(** A Go [(T, error)] result.  The library calls used by [app.go] return
    the zero value of [T] together with a non-nil error, or a value and a
    nil error. *)
Inductive result (A : Type) : Type :=
| Ok (a : A)
| Err (e : error).
Arguments Ok {A} a.
Arguments Err {A} e.

(** The line feed that Go writes as [\n]. *)
Definition newline : string := String "010"%char EmptyString.

(** [v, _ := f()] : the error is dropped, and on failure [v] is the zero
    value. *)
Definition value_or {A : Type} (zero : A) (r : result A) : A :=
  match r with
  | Ok a => a
  | Err _ => zero
  end.

(** ** Package [strings] *)
Module strings.

(** [strings.HasPrefix(s, prefix)] *)
Fixpoint HasPrefix (s prefix : string) {struct prefix} : bool :=
  match prefix with
  | EmptyString => true
  | String p prefix' =>
      match s with
      | EmptyString => false
      | String c s' => Ascii.eqb c p && HasPrefix s' prefix'
      end
  end.

(** [strings.Index(s, substr)]: the byte offset of the first occurrence,
    [None] for Go's [-1]. *)
Fixpoint Index (s substr : string) : option nat :=
  if HasPrefix s substr then Some 0%nat
  else
    match s with
    | EmptyString => None
    | String _ s' => S <$> Index s' substr
    end.

(** [strings.Contains(s, substr)] is [Index(s, substr) >= 0]. *)
Definition Contains (s substr : string) : bool :=
  if Index s substr is Some _ then true else false.

(** The slices [s[:n]] and [s[n:]]. *)
Fixpoint slice_to (n : nat) (s : string) : string :=
  match n, s with
  | S n', String c s' => String c (slice_to n' s')
  | _, _ => EmptyString
  end.

Fixpoint slice_from (n : nat) (s : string) : string :=
  match n, s with
  | S n', String _ s' => slice_from n' s'
  | _, _ => s
  end.

(** The loop of [genSplit] for a non-empty separator.  Go bounds the
    number of cuts by [n-1] where [n <= len(s)+1]; [cuts] is that bound.
    When it is used up, or no separator is left, the rest of the string is
    the last element. *)
Fixpoint genSplit (cuts : nat) (s sep : string) : list string :=
  match cuts with
  | O => [s]
  | S cuts' =>
      match Index s sep with
      | None => [s]
      | Some m =>
          slice_to m s
            :: genSplit cuts' (slice_from (m + String.length sep) s) sep
      end
  end.

(** [explode] for an empty separator, one element per byte (Go cuts at
    UTF-8 sequences; [app.go] never passes an empty separator). *)
Fixpoint explode (s : string) : list string :=
  match s with
  | EmptyString => []
  | String c s' => String c EmptyString :: explode s'
  end.

(** [strings.Split(s, sep)] *)
Definition Split (s sep : string) : list string :=
  match sep with
  | EmptyString => explode s
  | _ => genSplit (String.length s) s sep
  end.

(** [strings.Join(elems, sep)] *)
Fixpoint Join (elems : list string) (sep : string) : string :=
  match elems with
  | [] => EmptyString
  | [x] => x
  | x :: rest => x +:+ sep +:+ Join rest sep
  end.

End strings.

(** ** Package [fmt] *)
Module fmt.

(** What [Sprintf] appends for operands left over at the end of the
    format. *)
Definition extra (a : list string) : string :=
  match a with
  | [] => EmptyString
  | _ => "%!(EXTRA " +:+ strings.Join ((λ x, "string=" +:+ x) <$> a) ", " +:+ ")"
  end.

(** [fmt.Sprintf] for string operands and the verbs [%s], [%v] and the
    literal [%%], which are all that [app.go] uses; any other byte of the
    format is copied. *)
Fixpoint Sprintf (format : string) (a : list string) : string :=
  match format with
  | EmptyString => extra a
  | String c rest =>
      if Ascii.eqb c "%"%char then
        match rest with
        | String verb rest' =>
            if Ascii.eqb verb "%"%char then String "%"%char (Sprintf rest' a)
            else if Ascii.eqb verb "s"%char || Ascii.eqb verb "v"%char then
              match a with
              | x :: a' => x +:+ Sprintf rest' a'
              | [] => "%!" +:+ String verb "(MISSING)" +:+ Sprintf rest' []
              end
            else String c (Sprintf rest a)
        | EmptyString => String c (Sprintf rest a)
        end
      else String c (Sprintf rest a)
  end.

End fmt.

(** ** Package [path] *)
Module path.

(** The elements of a path that [Clean] keeps, last one first: empty
    elements and [.] are dropped, [..] removes the element before it; at
    the root it is dropped, at the start of a path that is not rooted it
    is kept. *)
Fixpoint cleanElements (rooted : bool) (elems out : list string) : list string :=
  match elems with
  | [] => out
  | e :: rest =>
      if decide (e = "") then cleanElements rooted rest out
      else if decide (e = ".") then cleanElements rooted rest out
      else if decide (e = "..") then
        match out with
        | top :: out' =>
            if decide (top = "..") then cleanElements rooted rest (e :: out)
            else cleanElements rooted rest out'
        | [] =>
            if rooted then cleanElements rooted rest []
            else cleanElements rooted rest [e]
        end
      else cleanElements rooted rest (e :: out)
  end.

(** [path.Clean(path)] *)
Definition Clean (path : string) : string :=
  let rooted := strings.HasPrefix path "/" in
  let out :=
    strings.Join (reverse (cleanElements rooted (strings.Split path "/") [])) "/" in
  if rooted then "/" +:+ out
  else if decide (out = "") then "." else out.

End path.

(** ** Package [net] *)
Module net.

(** [type IP []byte]; a nil slice is the empty list. *)
Definition IP := list byte.

Definition v4InV6Prefix : list byte :=
  [x00; x00; x00; x00; x00; x00; x00; x00; x00; x00; xff; xff].

Definition IPv6loopback : IP :=
  [x00; x00; x00; x00; x00; x00; x00; x00;
   x00; x00; x00; x00; x00; x00; x00; x01].

Definition isZeros (p : list byte) : bool :=
  forallb (λ b, Byte.eqb b x00) p.

Definition bytesEqual (a b : list byte) : bool :=
  (length a =? length b)%nat && forallb (λ p, Byte.eqb p.1 p.2) (zip a b).

(** [p[i] == b], for an index inside the slice. *)
Definition byteIs (p : list byte) (i : nat) (b : byte) : bool :=
  match p !! i with
  | Some c => Byte.eqb c b
  | None => false
  end.

(** [ip.To4()]: the 4-byte form, [None] for Go's nil. *)
Definition To4 (ip : IP) : option IP :=
  if (length ip =? 4)%nat then Some ip
  else if (length ip =? 16)%nat && isZeros (take 10 ip)
          && byteIs ip 10 xff && byteIs ip 11 xff
  then Some (drop 12 ip)
  else None.

(** [ip.Equal(x)] *)
Definition Equal (ip x : IP) : bool :=
  if (length ip =? length x)%nat then bytesEqual ip x
  else if (length ip =? 4)%nat && (length x =? 16)%nat
  then bytesEqual (take 12 x) v4InV6Prefix && bytesEqual ip (drop 12 x)
  else if (length ip =? 16)%nat && (length x =? 4)%nat
  then bytesEqual (take 12 ip) v4InV6Prefix && bytesEqual (drop 12 ip) x
  else false.

(** [ip.IsLoopback()] *)
Definition IsLoopback (ip : IP) : bool :=
  match To4 ip with
  | Some ip4 => byteIs ip4 0 x7f
  | None => Equal ip IPv6loopback
  end.

Definition hexDigit (n : N) : ascii :=
  default "0"%char (String.get (N.to_nat n) "0123456789abcdef").

(** [appendHex]: a 16-bit group in lower-case hexadecimal without
    leading zeros. *)
Definition appendHex (x : N) : string :=
  (if (0x1000 <=? x)%N then String (hexDigit (N.shiftr x 12)) EmptyString else EmptyString)
  +:+ (if (0x100 <=? x)%N then String (hexDigit (N.land (N.shiftr x 8) 0xf)) EmptyString else EmptyString)
  +:+ (if (0x10 <=? x)%N then String (hexDigit (N.land (N.shiftr x 4) 0xf)) EmptyString else EmptyString)
  +:+ String (hexDigit (N.land x 0xf)) EmptyString.

(** [hexString]: two digits per byte. *)
Fixpoint hexString (b : list byte) : string :=
  match b with
  | [] => EmptyString
  | c :: b' =>
      String (hexDigit (N.shiftr (Byte.to_N c) 4))
        (String (hexDigit (N.land (Byte.to_N c) 0xf)) (hexString b'))
  end.

(** The eight 16-bit groups of a 16-byte address. *)
Fixpoint v6u16 (ip : list byte) : list N :=
  match ip with
  | hi :: lo :: rest => (Byte.to_N hi * 256 + Byte.to_N lo)%N :: v6u16 rest
  | _ => []
  end.

Fixpoint zeroRun (g : list N) : nat :=
  match g with
  | 0%N :: g' => S (zeroRun g')
  | _ => O
  end.

(** The first longest run of at least two zero groups, as
    [(zeroStart, zeroEnd)]; [(255, 255)] when there is none. *)
Definition zeroSpan (g : list N) : nat * nat :=
  foldl (λ '(zeroStart, zeroEnd) i,
           let l := zeroRun (drop i g) in
           if (2 <=? l)%nat && (zeroEnd - zeroStart <? l)%nat
           then (i, (i + l)%nat) else (zeroStart, zeroEnd))
        (255%nat, 255%nat) (seq 0 8).

(** Textual form of a 16-byte address that has no 4-byte form: groups
    separated by [:], the span of [zeroSpan] written [::]. *)
Definition string6 (ip : list byte) : string :=
  let g := v6u16 ip in
  let '(zeroStart, zeroEnd) := zeroSpan g in
  if (zeroStart <? 8)%nat
  then strings.Join (appendHex <$> take zeroStart g) ":" +:+ "::"
       +:+ strings.Join (appendHex <$> drop zeroEnd g) ":"
  else strings.Join (appendHex <$> g) ":".

(** Dotted decimal of a 4-byte address. *)
Definition string4 (p4 : list byte) : string :=
  strings.Join ((λ b, pretty (Byte.to_N b)) <$> p4) ".".

(** [ip.String()] *)
Definition IP_String (ip : IP) : string :=
  if (length ip =? 0)%nat then "<nil>"
  else if negb (length ip =? 4)%nat && negb (length ip =? 16)%nat
  then "?" +:+ hexString ip
  else
    match To4 ip with
    | Some p4 => string4 p4
    | None => string6 ip
    end.

(** [type IPNet struct { IP IP; Mask IPMask }] *)
Record IPNet := { IPNet_IP : IP; IPNet_Mask : list byte }.

(** A value of the interface [net.Addr]: the result of its [String]
    method, and the [net.IPNet] it points to when that is its dynamic
    type (what the type assertion on the address yields). *)
Record Addr := { Addr_String : string; Addr_IPNet : option IPNet }.

(** [net.Interface] with the result of its [Addrs()] method. *)
Record Interface := { Name : string; Addrs : result (list Addr) }.

End net.

(** ** Package [net/textproto] *)
Module textproto.

(** [validHeaderFieldByte]: the token characters of RFC 7230. *)
Definition validHeaderFieldByte (c : ascii) : bool :=
  let n := nat_of_ascii c in
  ((48 <=? n) && (n <=? 57) || (65 <=? n) && (n <=? 90)
   || (97 <=? n) && (n <=? 122))%nat
  || bool_decide (c ∈ String.list_ascii_of_string "!#$%&'*+-.^_`|~").

Definition upper (c : ascii) : ascii :=
  let n := nat_of_ascii c in
  if ((97 <=? n) && (n <=? 122))%nat then ascii_of_nat (n - 32) else c.

Definition lower (c : ascii) : ascii :=
  let n := nat_of_ascii c in
  if ((65 <=? n) && (n <=? 90))%nat then ascii_of_nat (n + 32) else c.

(** The casing pass: upper case at the start and after [-], lower case
    elsewhere. *)
Fixpoint canonicalCase (up : bool) (s : string) : string :=
  match s with
  | EmptyString => EmptyString
  | String c s' =>
      let c' := if up then upper c else lower c in
      String c' (canonicalCase (Ascii.eqb c' "-"%char) s')
  end.

(** [textproto.CanonicalMIMEHeaderKey]: a key with a byte that is not a
    token character is returned unchanged. *)
Definition CanonicalMIMEHeaderKey (s : string) : string :=
  if forallb validHeaderFieldByte (String.list_ascii_of_string s)
  then canonicalCase true s else s.

(** [type MIMEHeader map[string][]string], which is also [http.Header]. *)
Abbreviation MIMEHeader := (gmap string (list string)).

(** [h.Get(key)]: the first value under the canonical key, or [""]. *)
Definition Get (h : MIMEHeader) (key : string) : string :=
  match h !! CanonicalMIMEHeaderKey key with
  | Some (v :: _) => v
  | _ => EmptyString
  end.

(** [h.Set(key, value)] *)
Definition Set_ (h : MIMEHeader) (key value : string) : MIMEHeader :=
  <[CanonicalMIMEHeaderKey key := [value]]> h.

End textproto.

(** ** Package [net/http] *)
Module http.

Definition StatusOK : Z := 200.

(** The fields of [*http.Request] that [app.go] reads. *)
Record Request := {
  Method : string;
  URL_Path : string;
  Host : string;
  RemoteAddr : string;
  Header : textproto.MIMEHeader;
}.

(** [r.UserAgent()] *)
Definition UserAgent (r : Request) : string :=
  textproto.Get (Header r) "User-Agent".

(** The server's [ResponseWriter]: the header map handed to the handler,
    whether the status line has been written, the status, the headers as
    they stood when it was written, and the body bytes written so far.
    (Headers that the server adds by itself, such as [Date] and
    [Content-Length], are left out.) *)
Record response := {
  handlerHeader : textproto.MIMEHeader;
  wroteHeader : bool;
  status : Z;
  sentHeader : textproto.MIMEHeader;
  body : string;
}.

(** The writer a handler is started with. *)
Definition newResponse : response :=
  {| handlerHeader := ∅; wroteHeader := false; status := 0;
     sentHeader := ∅; body := EmptyString |}.

(** [w.Header().Set(key, value)] *)
Definition Header_Set (w : response) (key value : string) : response :=
  {| handlerHeader := textproto.Set_ (handlerHeader w) key value;
     wroteHeader := wroteHeader w; status := status w;
     sentHeader := sentHeader w; body := body w |}.

(** [w.WriteHeader(code)]: a second call changes nothing. *)
Definition WriteHeader (w : response) (code : Z) : response :=
  if wroteHeader w then w
  else {| handlerHeader := handlerHeader w; wroteHeader := true;
          status := code; sentHeader := handlerHeader w; body := body w |}.

(** [w.Write(data)]: the first write sends status 200 when no status was
    written before. *)
Definition Write (w : response) (data : string) : response :=
  let w := if wroteHeader w then w else WriteHeader w StatusOK in
  {| handlerHeader := handlerHeader w; wroteHeader := wroteHeader w;
     status := status w; sentHeader := sentHeader w;
     body := body w +:+ data |}.

(** What the server does when the handler has returned: a handler that
    wrote nothing still answers with status 200. *)
Definition finishRequest (w : response) : response :=
  if wroteHeader w then w else WriteHeader w StatusOK.

(** [fmt.Fprintf(w, format, a...)] on a response writer. *)
Definition Fprintf (w : response) (format : string) (a : list string) : response :=
  Write w (fmt.Sprintf format a).

(** [http.Error(w, error, code)] *)
Definition Error (w : response) (error : string) (code : Z) : response :=
  let w := Header_Set w "Content-Type" "text/plain; charset=utf-8" in
  let w := Header_Set w "X-Content-Type-Options" "nosniff" in
  let w := WriteHeader w code in
  Write w (error +:+ newline).

(** A handler: the writer after it has returned and the lines it logged;
    [None] when it panics. *)
Definition Handler : Type :=
  response → Request → option (response * list string).

(** [http.NotFound] *)
Definition NotFound : Handler :=
  λ w _, Some (Error w "404 page not found" 404, []).

(** *** The pattern table of [ServeMux]

    Patterns without a method or host part, which is what [app.go]
    registers.  A pattern ending in [/] names a subtree, any other pattern
    one path, and the longest matching pattern wins. *)
Record muxEntry := { entry_h : Handler; entry_pattern : string }.

Record ServeMux := {
  mux_m : gmap string muxEntry;
  mux_es : list muxEntry;
}.

Definition DefaultServeMux : ServeMux :=
  {| mux_m := ∅; mux_es := [] |}.

(** [appendSorted]: subtree patterns are kept longest first. *)
Fixpoint appendSorted (es : list muxEntry) (e : muxEntry) : list muxEntry :=
  match es with
  | [] => [e]
  | x :: rest =>
      if (String.length (entry_pattern x) <? String.length (entry_pattern e))%nat
      then e :: x :: rest
      else x :: appendSorted rest e
  end.

Definition endsInSlash (pattern : string) : bool :=
  if last (String.list_ascii_of_string pattern) is Some c
  then Ascii.eqb c "/"%char else false.

(** [mux.Handle(pattern, handler)]; [None] is the panic for an empty
    pattern or a pattern registered twice. *)
Definition Handle (mux : ServeMux) (pattern : string) (handler : Handler)
  : option ServeMux :=
  if decide (pattern = EmptyString) then None
  else if mux_m mux !! pattern is Some _ then None
  else
    let e := {| entry_h := handler; entry_pattern := pattern |} in
    Some {| mux_m := <[pattern := e]> (mux_m mux);
            mux_es := if endsInSlash pattern
                      then appendSorted (mux_es mux) e else mux_es mux |}.

(** [mux.match(path)]: an exact entry first, else the longest subtree
    pattern that is a prefix of the path. *)
Definition match_ (mux : ServeMux) (path : string) : option muxEntry :=
  match mux_m mux !! path with
  | Some v => Some v
  | None => find (λ e, strings.HasPrefix path (entry_pattern e)) (mux_es mux)
  end.

(** [cleanPath]: the canonical form of a request path, rooted, without
    empty, [.] and [..] elements, a final slash kept. *)
Definition cleanPath (p : string) : string :=
  if decide (p = EmptyString) then "/"
  else
    let p := if strings.HasPrefix p "/" then p else "/" +:+ p in
    let np := path.Clean p in
    if endsInSlash p && negb (bool_decide (np = "/")) then
      if (String.length p =? String.length np + 1)%nat && strings.HasPrefix p np
      then p else np +:+ "/"
    else np.

(** [mux.shouldRedirectRLocked]: the path has no entry of its own, and
    the path with a slash added has one.  The lookups under the host of the
    request are left out: in a table without host patterns every key begins
    with [/], and a host does not. *)
Definition shouldRedirect (mux : ServeMux) (path : string) : bool :=
  if mux_m mux !! path is Some _ then false
  else if decide (path = EmptyString) then false
  else if mux_m mux !! (path +:+ "/") is Some _ then negb (endsInSlash path)
  else false.

(** The handler that [mux.Handler(r)] picks: a registered one, the
    redirect (status 301) to a path, or the one that answers 404. *)
Inductive routed : Type :=
| RunEntry (e : muxEntry)
| RunRedirect (path : string)
| RunNotFound.

(** [mux.handler(host, path)] for a table without host patterns. *)
Definition handler (mux : ServeMux) (path : string) : routed :=
  match match_ mux path with
  | Some e => RunEntry e
  | None => RunNotFound
  end.

(** [mux.Handler(r)]: a [CONNECT] request is matched as it is; for any
    other method a path that is not in canonical form is answered with a
    redirect to the canonical form, and no registered handler runs.  (The
    path is the path of the request target, taken without escaped
    bytes.) *)
Definition Handler_of (mux : ServeMux) (r : Request) : routed :=
  if decide (Method r = "CONNECT") then
    if shouldRedirect mux (URL_Path r) then RunRedirect (URL_Path r +:+ "/")
    else handler mux (URL_Path r)
  else
    let path := cleanPath (URL_Path r) in
    if shouldRedirect mux path then RunRedirect (path +:+ "/")
    else if decide (path = URL_Path r) then handler mux (URL_Path r)
    else RunRedirect path.

(** What became of a request: the handler registered under a pattern ran
    (its result, [None] when it panicked); or the multiplexer or the server
    wrote the answer itself; or the multiplexer sent the redirect to a
    path, whose header and body are not spelled out. *)
Inductive outcome : Type :=
| Ran (pattern : string) (result : option (response * list string))
| Answered (w : response)
| Moved (path : string).

(** [serverHandler.ServeHTTP] with the default multiplexer, followed by
    [finishRequest].  The request target [*] never reaches a registered
    handler: the server answers [OPTIONS *] itself and the multiplexer
    answers 400 to any other method. *)
Definition ServeHTTP (mux : ServeMux) (w : response) (r : Request) : outcome :=
  if decide (URL_Path r = "*") then
    if decide (Method r = "OPTIONS")
    then Answered (finishRequest (Header_Set w "Content-Length" "0"))
    else Answered (finishRequest (WriteHeader (Header_Set w "Connection" "close") 400))
  else
    match Handler_of mux r with
    | RunEntry e =>
        Ran (entry_pattern e)
            ('(w', logged) ← entry_h e w r; Some (finishRequest w', logged))
    | RunRedirect path => Moved path
    | RunNotFound => Answered (finishRequest (Error w "404 page not found" 404))
    end.

(** *** Reading a request

    [conn.readRequest] of the HTTP/1.1 server as far as the header map
    goes, for a request line with a method and a plain rooted path, and
    header lines given as field name and field value.  Each line is added
    under the canonical form of its name, after the lines before it; the
    one [Host] line becomes [r.Host] and is deleted from the map.  [None]
    stands for everything else: requests the server answers itself (a name
    that is not a token, no or several [Host] lines), and requests outside
    this model (bytes other than printable ASCII or blanks around a value,
    the fields the server treats specially, a header block near the size
    limit, a request target with a query or escaped bytes). *)
Definition addLine (h : textproto.MIMEHeader) (line : string * string)
  : textproto.MIMEHeader :=
  let key := textproto.CanonicalMIMEHeaderKey line.1 in
  <[key := default [] (h !! key) ++ [line.2]]> h.

Definition printable (c : ascii) : bool :=
  ((32 <=? nat_of_ascii c) && (nat_of_ascii c <=? 126))%nat.

Definition plainValue (v : string) : bool :=
  forallb printable (String.list_ascii_of_string v)
  && negb (strings.HasPrefix v " ")
  && negb (if last (String.list_ascii_of_string v) is Some c
           then Ascii.eqb c " "%char else false).

Definition plainHost (v : string) : bool :=
  forallb (λ c, let n := nat_of_ascii c in
                ((48 <=? n) && (n <=? 58) || (65 <=? n) && (n <=? 90)
                 || (97 <=? n) && (n <=? 122) || (n =? 45) || (n =? 46)
                 || (n =? 91) || (n =? 93))%nat)
          (String.list_ascii_of_string v).

Definition plainPath (p : string) : bool :=
  strings.HasPrefix p "/"
  && forallb (λ c, printable c
                   && negb (bool_decide (c ∈ String.list_ascii_of_string " ?#%")))
             (String.list_ascii_of_string p).

Definition plainLine (line : string * string) : bool :=
  negb (bool_decide (line.1 = EmptyString))
  && forallb textproto.validHeaderFieldByte (String.list_ascii_of_string line.1)
  && plainValue line.2
  && negb (bool_decide
             (textproto.CanonicalMIMEHeaderKey line.1
              ∈ ["Transfer-Encoding"; "Trailer"; "Content-Length"; "Pragma";
                 "Expect"])).

Definition readRequest (method path remoteAddr : string)
    (lines : list (string * string)) : option Request :=
  if negb (bool_decide (method ∈ ["GET"; "HEAD"; "POST"; "PUT"; "PATCH"; "DELETE"]))
  then None
  else if negb (plainPath path) then None
  else if negb (forallb plainLine lines) then None
  else if negb (list_sum ((λ l, String.length l.1 + String.length l.2 + 4)%nat <$> lines)
                <=? 4000)%nat
  then None
  else
    let h := foldl addLine ∅ lines in
    match h !! "Host" with
    | Some [host] =>
        if plainHost host
        then Some {| Method := method; URL_Path := path; Host := host;
                     RemoteAddr := remoteAddr; Header := delete "Host" h |}
        else None
    | _ => None
    end.

End http.

(** ** Package [geoip2] *)
Module geoip2.

(** The fields of [geoip2.City] that [app.go] reads. *)
Record City := {
  City_Names : gmap string string;
  Country_IsoCode : string;
  Country_Names : gmap string string;
  Location_Latitude : float;
  Location_Longitude : float;
  Postal_Code : string;
}.

(** An open database: its [City] lookup. *)
Record Reader := { Reader_City : net.IP → result City }.

End geoip2.

(** Reading a [map[string]string]: a missing key gives [""]. *)
Definition mapIndex (m : gmap string string) (k : string) : string :=
  default EmptyString (m !! k).

(** ** The data model of [app.go] *)

Record RequestDetails := {
  RemoteAddr : string;
  Host : string;
  Method : string;
  UserAgent : string;
  ForwardedFor : string;
  Headers : gmap string string;
}.

Record ServerDetails := {
  Hostname : string;
  ServerIP : string;
  Interfaces : gmap string string;
}.

Record IPInfoDetails := {
  PublicIP : string;
  CountryCode : string;
  Country : string;
  City : string;
  Latitude : float;
  Longitude : float;
  Organization : string;
  PostalCode : string;
}.

Record OSDetails := {
  Platform : string;
  Arch : string;
  GoVersion : string;
  CPUNum : Z;
  Memory : string;
}.

Record SystemDetails := { OS : OSDetails }.

(** [type ConnectionDetails struct] *)
Record ConnectionDetails := {
  Request : RequestDetails;
  Server : ServerDetails;
  IPInfo : IPInfoDetails;
  System : SystemDetails;
}.

(** Zero values.  A nil map and an empty map read alike and are both [∅]. *)
Definition zeroRequest : RequestDetails :=
  {| RemoteAddr := ""; Host := ""; Method := ""; UserAgent := "";
     ForwardedFor := ""; Headers := ∅ |}.

Definition zeroServer : ServerDetails :=
  {| Hostname := ""; ServerIP := ""; Interfaces := ∅ |}.

Definition zeroIPInfo : IPInfoDetails :=
  {| PublicIP := ""; CountryCode := ""; Country := ""; City := "";
     Latitude := 0%float; Longitude := 0%float; Organization := "";
     PostalCode := "" |}.

Definition zeroSystem : SystemDetails :=
  {| OS := {| Platform := ""; Arch := ""; GoVersion := ""; CPUNum := 0;
              Memory := "" |} |}.

(** [ConnectionDetails{}] *)
Definition zeroDetails : ConnectionDetails :=
  {| Request := zeroRequest; Server := zeroServer; IPInfo := zeroIPInfo;
     System := zeroSystem |}.

(** ** The surroundings of the program *)

(** Library functions that are used as they are: their results are not
    computed here. *)
Class Lib := {
  net_ParseIP : string → option net.IP;
  humanize_Bytes : N → string;
  json_Marshal : ConnectionDetails → result string;
  json_MarshalIndent : ConnectionDetails → string → string → result string;
}.

(** What the host answers during one request. *)
Record World := {
  os_Hostname : result string;
  net_Interfaces : result (list net.Interface);
  net_InterfaceAddrs : result (list net.Addr);
  runtime_GOOS : string;
  runtime_GOARCH : string;
  runtime_Version : string;
  runtime_NumCPU : Z;
  runtime_MemStats_Sys : N;
  geoip2_Open : string → result geoip2.Reader;
  os_Getenv : string → string;
}.

(** ** [app.go] *)
Section App.
Context {lib : Lib}.
Variable W : World.

(** [log.Printf(format, v...)]: the line that goes to the process log. *)
Definition log_Printf (format : string) (v : list string) : string :=
  fmt.Sprintf format v.

(** [func getNetworkInterfaces() map[string]string] *)
Definition getNetworkInterfaces : gmap string string :=
  let interfaces : gmap string string := ∅ in
  match net_Interfaces W with
  | Err _ => interfaces
  | Ok ifaces =>
      foldl (λ interfaces iface,
               match net.Addrs iface with
               | Err _ => interfaces
               | Ok addrs =>
                   foldl (λ interfaces addr,
                            <[net.Name iface := net.Addr_String addr]> interfaces)
                         interfaces addrs
               end)
            interfaces ifaces
  end.

(** [func getPublicIPInfo(ip string) ConnectionDetails], with the lines it
    logs.  The deferred [db.Close()] leaves no trace in the result. *)
Definition getPublicIPInfo (ip : string) : ConnectionDetails * list string :=
  let details :=
    {| Request := zeroRequest; Server := zeroServer;
       IPInfo := {| PublicIP := ip; CountryCode := ""; Country := "";
                    City := ""; Latitude := 0%float; Longitude := 0%float;
                    Organization := ""; PostalCode := "" |};
       System := zeroSystem |} in
  match geoip2_Open W "GeoLite2-City.mmdb" with
  | Err err =>
      (details, [log_Printf "Could not open GeoIP database: %v" [err]])
  | Ok db =>
      match net_ParseIP ip with
      | None => (details, [])
      | Some parsedIP =>
          match geoip2.Reader_City db parsedIP with
          | Err err => (details, [log_Printf "IP lookup error: %v" [err]])
          | Ok record =>
              ({| Request := Request details; Server := Server details;
                  IPInfo :=
                    {| PublicIP := PublicIP (IPInfo details);
                       CountryCode := geoip2.Country_IsoCode record;
                       Country := mapIndex (geoip2.Country_Names record) "en";
                       City := mapIndex (geoip2.City_Names record) "en";
                       Latitude := geoip2.Location_Latitude record;
                       Longitude := geoip2.Location_Longitude record;
                       Organization := Organization (IPInfo details);
                       PostalCode := geoip2.Postal_Code record |};
                  System := System details |}, [])
          end
      end
  end.

(** The header loop of [connectionHandler]: one entry per key of
    [r.Header], its values joined with [;]. *)
Definition flattenHeaders (h : textproto.MIMEHeader) : gmap string string :=
  map_fold (λ k v (headers : gmap string string),
              <[k := strings.Join v ";"]> headers) ∅ h.

(** The server-IP loop of [connectionHandler]: the first address that is
    an [IPNet], is not a loopback address and has a 4-byte form ends the
    loop. *)
Fixpoint serverIPLoop (addrs : list net.Addr) (serverIP : string) : string :=
  match addrs with
  | [] => serverIP
  | addr :: rest =>
      match net.Addr_IPNet addr with
      | Some ipnet =>
          if negb (net.IsLoopback (net.IPNet_IP ipnet)) then
            if net.To4 (net.IPNet_IP ipnet) is Some _
            then net.IP_String (net.IPNet_IP ipnet)
            else serverIPLoop rest serverIP
          else serverIPLoop rest serverIP
      | None => serverIPLoop rest serverIP
      end
  end.

(** The address handed to [getPublicIPInfo]; [None] is the panic of an
    index out of range. *)
Definition callerIP (r : http.Request) : option string :=
  let ip := textproto.Get (http.Header r) "X-Forwarded-For" in
  if decide (ip = "")
  then strings.Split (http.RemoteAddr r) ":" !! 0%nat
  else Some ip.

(** The first part of [connectionHandler]: the record it assembles, and
    the lines logged on the way. *)
Definition collectDetails (r : http.Request)
  : option (ConnectionDetails * list string) :=
  let request :=
    {| RemoteAddr := http.RemoteAddr r;
       Host := http.Host r;
       Method := http.Method r;
       UserAgent := http.UserAgent r;
       ForwardedFor := textproto.Get (http.Header r) "X-Forwarded-For";
       Headers := flattenHeaders (http.Header r) |} in
  let hostname := value_or "" (os_Hostname W) in
  let addrs := value_or [] (net_InterfaceAddrs W) in
  let server :=
    {| Hostname := hostname;
       ServerIP := serverIPLoop addrs "";
       Interfaces := getNetworkInterfaces |} in
  let system :=
    {| OS := {| Platform := runtime_GOOS W;
                Arch := runtime_GOARCH W;
                GoVersion := runtime_Version W;
                CPUNum := runtime_NumCPU W;
                Memory := humanize_Bytes (runtime_MemStats_Sys W) |} |} in
  ip ← callerIP r;
  let '(ipDetails, logged) := getPublicIPInfo ip in
  Some ({| Request := request; Server := server;
           IPInfo := IPInfo ipDetails; System := system |}, logged).

Definition htmlTemplate : string := "
	<!DOCTYPE html>
	<html>
	<head>
		<title>Connection Details</title>
		<style>
			body { font-family: Arial, sans-serif; max-width: 900px; margin: 0 auto; padding: 20px; }
			pre { background-color: #f4f4f4; padding: 15px; border-radius: 5px; white-space: pre-wrap; word-wrap: break-word; }
		</style>
	</head>
	<body>
		<h1>Connection Details</h1>
		<pre>%s</pre>
	</body>
	</html>".

(** [json.NewEncoder(w).Encode(v)]: the encoding and a newline in one
    write, nothing when the value cannot be encoded. *)
Definition json_Encode (w : http.response) (v : ConnectionDetails) : http.response :=
  match json_Marshal v with
  | Ok b => http.Write w (b +:+ newline)
  | Err _ => w
  end.

(** [isJSON] *)
Definition isJSON (r : http.Request) : bool :=
  strings.Contains (textproto.Get (http.Header r) "Accept") "application/json"
  || strings.Contains (http.UserAgent r) "curl".

(** The second part of [connectionHandler]: the response for the
    assembled record. *)
Definition writeResponse (w : http.response) (r : http.Request)
    (details : ConnectionDetails) : http.response :=
  if isJSON r then
    let w := http.Header_Set w "Content-Type" "application/json" in
    json_Encode w details
  else
    let w := http.Header_Set w "Content-Type" "text/html" in
    let jsonOutput := value_or "" (json_MarshalIndent details "" "  ") in
    http.Fprintf w htmlTemplate [jsonOutput].

(** [func connectionHandler(w http.ResponseWriter, r *http.Request)]: the
    writer after the handler has returned and the lines logged, [None] when
    the handler panics. *)
Definition connectionHandler : http.Handler :=
  λ w r,
    '(details, logged) ← collectDetails r;
    Some (writeResponse w r details, logged).

(** The handler as the server runs it on a fresh writer. *)
Definition serve (r : http.Request) : option (http.response * list string) :=
  '(w, logged) ← connectionHandler http.newResponse r;
  Some (http.finishRequest w, logged).

(** Where [main] ends up: serving the pattern table on an address, or
    exited with a status after logging. *)
Inductive process : Type :=
| Serving (addr : string) (mux : http.ServeMux)
| Exited (code : Z) (logged : list string).

(** [func main()]: the line printed and where the process ends up; [None]
    is a panic of the registration.  [net_Listen] is what the host answers
    when [ListenAndServe] opens its TCP listener on an address.  When the
    listener cannot be opened, [ListenAndServe] returns the error and
    [log.Fatal] logs it and exits with status 1; otherwise the process
    serves the default multiplexer on the address. *)
Definition main (net_Listen : string → result ())
  : option (string * process) :=
  let port := os_Getenv W "PORT" in
  let port := if decide (port = "") then "3100" else port in
  mux ← http.Handle http.DefaultServeMux "/" connectionHandler;
  let printed := fmt.Sprintf ("Server starting on port %s" +:+ newline) [port] in
  match net_Listen (":" +:+ port) with
  | Err err => Some (printed, Exited 1 [err])
  | Ok _ => Some (printed, Serving (":" +:+ port) mux)
  end.

(** The answer of the running server to a request: [ServeHTTP] of the
    table that [main] serves, on a fresh writer.  [None]: the process is
    not serving. *)
Definition server (net_Listen : string → result ()) (r : http.Request)
  : option http.outcome :=
  '(_, p) ← main net_Listen;
  match p with
  | Serving _ mux => Some (http.ServeHTTP mux http.newResponse r)
  | Exited _ _ => None
  end.

End App.

(** ** Notions of the specification *)

(** [strings.LastIndex(s, substr)] for a one-byte [substr]. *)
Fixpoint lastIndexByte (s : string) (c : ascii) : option nat :=
  match s with
  | EmptyString => None
  | String a s' =>
      match lastIndexByte s' c with
      | Some i => Some (S i)
      | None => if Ascii.eqb a c then Some 0%nat else None
      end
  end.

(** "The remote socket address stripped of its port": in [host:port] the
    port follows the last colon, so this is the address up to its last
    colon. *)
Definition strippedOfPort (addr : string) : string :=
  match lastIndexByte addr ":"%char with
  | Some i => strings.slice_to i addr
  | None => addr
  end.

(** The address strings enumerated for the interface called [name], in
    the order of enumeration; an interface whose addresses cannot be
    enumerated contributes none. *)
Definition addressesOf (name : string) (ifaces : list net.Interface) : list string :=
  flat_map (λ iface,
              if decide (net.Name iface = name)
              then match net.Addrs iface with
                   | Ok addrs => net.Addr_String <$> addrs
                   | Err _ => []
                   end
              else []) ifaces.

(** A non-loopback IPv4 address among the interface addresses: an
    address with an IP (an [IPNet], which is what the list of interface
    addresses holds) that is not a loopback address and has a 4-byte
    form. *)
Definition nonLoopbackIPv4 (addr : net.Addr) : bool :=
  match net.Addr_IPNet addr with
  | Some ipnet =>
      negb (net.IsLoopback (net.IPNet_IP ipnet))
      && bool_decide (is_Some (net.To4 (net.IPNet_IP ipnet)))
  | None => false
  end.

(** "Contains the substring": the string is the substring with something
    before and something after it. *)
Definition hasSubstring (s substr : string) : Prop :=
  ∃ before after, s = before +:+ substr +:+ after.

(** A format without any verb. *)
Definition plain (format : string) : bool :=
  forallb (λ c, negb (Ascii.eqb c "%"%char)) (String.list_ascii_of_string format).

(** The page around the verb of [htmlTemplate]: what stands before
    [<pre>%s</pre>] and what stands after it. *)
Definition htmlHead : string := strings.slice_to 352 htmlTemplate.
Definition htmlTail : string := strings.slice_from (352 + 13) htmlTemplate.

(** The request asks for JSON: its [Accept] header contains
    [application/json] or its user-agent string contains [curl].  The
    header and the user-agent string are what [Header.Get] reads. *)
Definition wantsJSON (r : http.Request) : Prop :=
  hasSubstring (textproto.Get (http.Header r) "Accept") "application/json"
  ∨ hasSubstring (http.UserAgent r) "curl".

(** A geo-record without data: every field at its zero value except
    [public_ip]. *)
Definition emptyGeoRecord (ip : string) : IPInfoDetails :=
  {| PublicIP := ip; CountryCode := ""; Country := ""; City := "";
     Latitude := 0%float; Longitude := 0%float; Organization := "";
     PostalCode := "" |}.

(** The request without its [X-Forwarded-For] header. *)
Definition withoutForwardedFor (r : http.Request) : http.Request :=
  {| http.Method := http.Method r; http.URL_Path := http.URL_Path r;
     http.Host := http.Host r; http.RemoteAddr := http.RemoteAddr r;
     http.Header := delete "X-Forwarded-For" (http.Header r) |}.

(** The geolocation lookup fails: the database cannot be opened, or the
    string does not parse as an IP address, or the lookup in the opened
    database returns an error. *)
Definition geoLookupFails `{Lib} (W : World) (ip : string) : Prop :=
  (∃ e, geoip2_Open W "GeoLite2-City.mmdb" = Err e)
  ∨ net_ParseIP ip = None
  ∨ (∃ db parsedIP e,
        geoip2_Open W "GeoLite2-City.mmdb" = Ok db
        ∧ net_ParseIP ip = Some parsedIP
        ∧ geoip2.Reader_City db parsedIP = Err e).

(** The running server has the handler of [app.go] answer the request:
    the handler registered under [/] runs, and the answer is the
    handler's. *)
Definition servedByHandler `{Lib} (W : World) (net_Listen : string → result ())
    (r : http.Request) : Prop :=
  server W net_Listen r = Some (http.Ran "/" (serve W r)).

(** A host that lets the process listen, and a host on which the port is
    taken. *)
Definition listenOk : string → result () := λ _, Ok ().
Definition listenInUse : string → result () :=
  λ addr, Err ("listen tcp " +:+ addr +:+ ": bind: address already in use").

(** The header lines that the command-line client [curl] sends. *)
Definition curlLines : list (string * string) :=
  [("Host", "example.org"); ("User-Agent", "curl/8.5.0"); ("Accept", "*/*")].

(** ** A sample host and sample requests *)

Definition sampleLib : Lib :=
  {| net_ParseIP := λ s,
       if decide (s = "8.8.8.8") then Some [x08; x08; x08; x08]
       else if decide (s = "10.1.2.3") then Some [x0a; x01; x02; x03]
       else None;
     humanize_Bytes := λ n, pretty n +:+ " B";
     json_Marshal := λ d, Ok ("{ip:" +:+ PublicIP (IPInfo d) +:+ "}");
     json_MarshalIndent := λ d prefix indent,
       Ok ("{" +:+ indent +:+ "ip: " +:+ PublicIP (IPInfo d) +:+ "}") |}.

Definition sampleCity : geoip2.City :=
  {| geoip2.City_Names := {["en" := "Mountain View"]};
     geoip2.Country_IsoCode := "US";
     geoip2.Country_Names := {["en" := "United States"]};
     geoip2.Location_Latitude := 37%float;
     geoip2.Location_Longitude := (-122)%float;
     geoip2.Postal_Code := "94043" |}.

Definition sampleReader : geoip2.Reader :=
  {| geoip2.Reader_City := λ ip,
       if net.bytesEqual ip [x08; x08; x08; x08] then Ok sampleCity
       else Err "address not found" |}.

Definition sampleAddr (s : string) (ip : net.IP) (mask : list byte) : net.Addr :=
  {| net.Addr_String := s;
     net.Addr_IPNet := Some {| net.IPNet_IP := ip; net.IPNet_Mask := mask |} |}.

Definition loAddr : net.Addr :=
  sampleAddr "127.0.0.1/8" [x7f; x00; x00; x01] [xff; x00; x00; x00].
Definition lo6Addr : net.Addr :=
  sampleAddr "::1/128" net.IPv6loopback (replicate 16 xff).
Definition ethAddr : net.Addr :=
  sampleAddr "192.168.1.10/24" [xc0; xa8; x01; x0a] [xff; xff; xff; x00].
Definition eth6Addr : net.Addr :=
  sampleAddr "fe80::1/64"
    [xfe; x80; x00; x00; x00; x00; x00; x00; x00; x00; x00; x00; x00; x00; x00; x01]
    (replicate 8 xff ++ replicate 8 x00).

Definition sampleInterfaces : list net.Interface :=
  [ {| net.Name := "lo"; net.Addrs := Ok [loAddr; lo6Addr] |};
    {| net.Name := "eth0"; net.Addrs := Ok [ethAddr; eth6Addr] |};
    {| net.Name := "tun0"; net.Addrs := Err "no such device" |};
    {| net.Name := "br0"; net.Addrs := Ok [] |} ].

Definition sampleWorld : World :=
  {| os_Hostname := Ok "web-1";
     net_Interfaces := Ok sampleInterfaces;
     net_InterfaceAddrs := Ok [loAddr; lo6Addr; eth6Addr; ethAddr];
     runtime_GOOS := "linux";
     runtime_GOARCH := "amd64";
     runtime_Version := "go1.21.0";
     runtime_NumCPU := 4;
     runtime_MemStats_Sys := 12000000;
     geoip2_Open := λ file,
       if decide (file = "GeoLite2-City.mmdb") then Ok sampleReader
       else Err "open: no such file or directory";
     os_Getenv := λ _, "" |}.

(** The same host without the database file. *)
Definition worldWithoutDB : World :=
  {| os_Hostname := os_Hostname sampleWorld;
     net_Interfaces := net_Interfaces sampleWorld;
     net_InterfaceAddrs := net_InterfaceAddrs sampleWorld;
     runtime_GOOS := runtime_GOOS sampleWorld;
     runtime_GOARCH := runtime_GOARCH sampleWorld;
     runtime_Version := runtime_Version sampleWorld;
     runtime_NumCPU := runtime_NumCPU sampleWorld;
     runtime_MemStats_Sys := runtime_MemStats_Sys sampleWorld;
     geoip2_Open := λ _, Err "open GeoLite2-City.mmdb: no such file or directory";
     os_Getenv := os_Getenv sampleWorld |}.

Definition sampleRequest (method path remote : string)
    (header : list (string * list string)) : http.Request :=
  {| http.Method := method; http.URL_Path := path; http.Host := "example.org";
     http.RemoteAddr := remote; http.Header := list_to_map header |}.

(** A request from an IPv6 client, without [X-Forwarded-For]. *)
Definition ipv6Request : http.Request :=
  sampleRequest "GET" "/" "[2001:db8::1]:51234" [("User-Agent", ["curl/8.5.0"])].

(** A request from an IPv4 client behind a proxy. *)
Definition forwardedRequest : http.Request :=
  sampleRequest "GET" "/" "203.0.113.9:51234"
    [("Accept", ["application/json"]); ("X-Forwarded-For", ["8.8.8.8"]);
     ("Via", ["1.1 a"; "1.1 b"])].

(** A request whose [X-Forwarded-For] header is present and empty. *)
Definition emptyForwardedRequest : http.Request :=
  sampleRequest "GET" "/" "203.0.113.9:51234"
    [("X-Forwarded-For", [""]); ("User-Agent", ["Mozilla/5.0"])].

(** A request with another method and another path. *)
Definition postStatusRequest : http.Request :=
  sampleRequest "POST" "/status" "203.0.113.9:51234" [].

(** ** Further sample hosts and requests *)

(** The pattern table that [main] serves on the sample host. *)
Definition sampleMux : http.ServeMux :=
  {| http.mux_m :=
       {["/" := {| http.entry_h := @connectionHandler sampleLib sampleWorld;
                   http.entry_pattern := "/" |}]};
     http.mux_es :=
       [{| http.entry_h := @connectionHandler sampleLib sampleWorld;
           http.entry_pattern := "/" |}] |}.

(** What the server makes of the request of [curl]. *)
Definition curlRequest : http.Request :=
  {| http.Method := "GET"; http.URL_Path := "/"; http.Host := "example.org";
     http.RemoteAddr := "203.0.113.9:51234";
     http.Header :=
       list_to_map [("User-Agent", ["curl/8.5.0"]); ("Accept", ["*/*"])] |}.


(** A host on which every query of the operating system fails. *)
Definition worldAllFailing : World :=
  {| os_Hostname := Err "hostname: operation not permitted";
     net_Interfaces := Err "route ip+net: netlinkrib: permission denied";
     net_InterfaceAddrs := Err "route ip+net: netlinkrib: permission denied";
     runtime_GOOS := runtime_GOOS sampleWorld;
     runtime_GOARCH := runtime_GOARCH sampleWorld;
     runtime_Version := runtime_Version sampleWorld;
     runtime_NumCPU := runtime_NumCPU sampleWorld;
     runtime_MemStats_Sys := runtime_MemStats_Sys sampleWorld;
     geoip2_Open := geoip2_Open sampleWorld;
     os_Getenv := os_Getenv sampleWorld |}.

(** The sample host when it lists its interfaces in the opposite order. *)
Definition worldReversed : World :=
  {| os_Hostname := os_Hostname sampleWorld;
     net_Interfaces := Ok (reverse sampleInterfaces);
     net_InterfaceAddrs := net_InterfaceAddrs sampleWorld;
     runtime_GOOS := runtime_GOOS sampleWorld;
     runtime_GOARCH := runtime_GOARCH sampleWorld;
     runtime_Version := runtime_Version sampleWorld;
     runtime_NumCPU := runtime_NumCPU sampleWorld;
     runtime_MemStats_Sys := runtime_MemStats_Sys sampleWorld;
     geoip2_Open := geoip2_Open sampleWorld;
     os_Getenv := os_Getenv sampleWorld |}.

(** The sample host started with [PORT=8080]. *)
Definition worldPort8080 : World :=
  {| os_Hostname := os_Hostname sampleWorld;
     net_Interfaces := net_Interfaces sampleWorld;
     net_InterfaceAddrs := net_InterfaceAddrs sampleWorld;
     runtime_GOOS := runtime_GOOS sampleWorld;
     runtime_GOARCH := runtime_GOARCH sampleWorld;
     runtime_Version := runtime_Version sampleWorld;
     runtime_NumCPU := runtime_NumCPU sampleWorld;
     runtime_MemStats_Sys := runtime_MemStats_Sys sampleWorld;
     geoip2_Open := geoip2_Open sampleWorld;
     os_Getenv := λ key, if decide (key = "PORT") then "8080" else "" |}.

(** A library whose JSON encoders reject every value. *)
Definition failingJSONLib : Lib :=
  {| net_ParseIP := @net_ParseIP sampleLib;
     humanize_Bytes := @humanize_Bytes sampleLib;
     json_Marshal := λ _, Err "json: unsupported value: NaN";
     json_MarshalIndent := λ _ _ _, Err "json: unsupported value: NaN" |}.

(** A request that passed two proxies. *)
Definition hopsRequest : http.Request :=
  sampleRequest "GET" "/" "198.51.100.4:40000"
    [("X-Forwarded-For", ["203.0.113.7, 10.0.0.1"])].

(** * Facts about the library layer *)

(** ** Strings *)

Lemma append_nil_l (s : string) : "" +:+ s = s.
Proof. reflexivity. Qed.

Lemma append_cons (c : ascii) (s t : string) :
  String c s +:+ t = String c (s +:+ t).
Proof. reflexivity. Qed.

Lemma append_nil_r (s : string) : s +:+ "" = s.
Proof. induction s as [|c s IH]; [done|]. by rewrite append_cons, IH. Qed.

Lemma append_assoc (s t u : string) : (s +:+ t) +:+ u = s +:+ t +:+ u.
Proof.
  induction s as [|c s IH]; [done|]. by rewrite !append_cons, IH.
Qed.

Lemma length_append (s t : string) :
  String.length (s +:+ t) = (String.length s + String.length t)%nat.
Proof.
  induction s as [|c s IH]; [done|]. rewrite append_cons. simpl. by rewrite IH.
Qed.

Lemma slice_to_append (s t : string) : strings.slice_to (String.length s) (s +:+ t) = s.
Proof.
  induction s as [|c s IH]; [by destruct t|].
  rewrite append_cons. simpl. by rewrite IH.
Qed.

Lemma slice_from_append (s t : string) (k : nat) :
  strings.slice_from (String.length s + k) (s +:+ t) = strings.slice_from k t.
Proof. induction s as [|c s IH]; [done|]. rewrite append_cons. simpl. apply IH. Qed.

Lemma slice_from_0 (s : string) : strings.slice_from 0 s = s.
Proof. by destruct s. Qed.

Lemma slice_to_from (n : nat) (s : string) :
  strings.slice_to n s +:+ strings.slice_from n s = s.
Proof.
  revert s. induction n as [|n IH]; intros [|c s]; simpl; try done.
  by rewrite append_cons, IH.
Qed.

Lemma HasPrefix_spec (s p : string) :
  strings.HasPrefix s p = true ↔ ∃ t, s = p +:+ t.
Proof.
  revert s. induction p as [|c p IH]; intros s; simpl.
  - split; [intros _; by exists s | done].
  - destruct s as [|a s].
    + split; [done | by intros [t Ht]].
    + rewrite andb_true_iff, Ascii.eqb_eq, IH. split.
      * intros [-> [t ->]]. by exists t.
      * intros [t Ht]. rewrite append_cons in Ht. injection Ht as -> ->. eauto.
Qed.

Lemma Index_unfold (s substr : string) :
  strings.Index s substr =
    if strings.HasPrefix s substr then Some 0%nat
    else match s with
         | EmptyString => None
         | String _ s' => S <$> strings.Index s' substr
         end.
Proof. by destruct s. Qed.

Lemma Index_at_start (s substr : string) :
  strings.HasPrefix s substr = true →
  s = strings.slice_to 0 s +:+ substr
        +:+ strings.slice_from (0 + String.length substr) s.
Proof.
  intros [t ->]%HasPrefix_spec. simpl strings.slice_to.
  rewrite append_nil_l. f_equal.
  replace (0 + String.length substr)%nat with (String.length substr + 0)%nat by lia.
  by rewrite slice_from_append, slice_from_0.
Qed.

(** The offset that [Index] returns is an occurrence. *)
Lemma Index_Some (s substr : string) (m : nat) :
  strings.Index s substr = Some m →
  s = strings.slice_to m s +:+ substr
        +:+ strings.slice_from (m + String.length substr) s.
Proof.
  revert m. induction s as [|c s IH]; intros m; rewrite Index_unfold;
    destruct (strings.HasPrefix _ substr) eqn:Hp;
    try (intros [= <-]; by apply Index_at_start); try done.
  destruct (strings.Index s substr) as [m'|] eqn:Hi; [|done].
  intros [= <-]. simpl. rewrite append_cons. f_equal. by apply IH.
Qed.

(** When [Index] finds nothing there is no occurrence. *)
Lemma Index_None (s substr : string) :
  strings.Index s substr = None → ¬ hasSubstring s substr.
Proof.
  intros Hi (a & b & ->). revert Hi. induction a as [|c a IH].
  - rewrite append_nil_l, Index_unfold.
    assert (strings.HasPrefix (substr +:+ b) substr = true) as ->; [|done].
    apply HasPrefix_spec. eauto.
  - rewrite append_cons, Index_unfold.
    destruct (strings.HasPrefix _ substr); [done|].
    destruct (strings.Index (a +:+ substr +:+ b) substr); [done|]. auto.
Qed.

(** [strings.Contains] decides "contains the substring". *)
Lemma Contains_spec (s substr : string) :
  strings.Contains s substr = true ↔ hasSubstring s substr.
Proof.
  unfold strings.Contains.
  destruct (strings.Index s substr) as [m|] eqn:Hi.
  - split; [intros _ | done]. apply Index_Some in Hi. unfold hasSubstring. eauto.
  - split; [done|]. intros H. by apply Index_None in H.
Qed.

(** [Split] with a non-empty separator never returns an empty slice, and
    its first element is the part before the first separator. *)
Lemma genSplit_head (cuts : nat) (s sep : string) :
  (String.length s ≤ cuts)%nat → sep ≠ "" →
  strings.genSplit cuts s sep !! 0%nat
  = Some (match strings.Index s sep with
          | Some m => strings.slice_to m s
          | None => s
          end).
Proof.
  intros Hlen Hsep. destruct cuts as [|cuts]; simpl.
  - destruct s; [|simpl in Hlen; lia].
    destruct sep; [done|]. by rewrite Index_unfold.
  - by destruct (strings.Index s sep).
Qed.

Lemma Split_head (s sep : string) :
  sep ≠ "" →
  strings.Split s sep !! 0%nat
  = Some (match strings.Index s sep with
          | Some m => strings.slice_to m s
          | None => s
          end).
Proof.
  intros Hsep. unfold strings.Split. destruct sep; [done|].
  by apply genSplit_head.
Qed.

(** More cuts than the length of the string change nothing: the bound on
    the loop of [genSplit] is never what ends it early. *)
Lemma Index_empty (sep : string) : sep ≠ "" → strings.Index "" sep = None.
Proof. intros Hsep. destruct sep; [done|]. by rewrite Index_unfold. Qed.

Lemma genSplit_cuts_enough (sep : string) (n n' : nat) (s : string) :
  sep ≠ "" → (String.length s ≤ n)%nat → (String.length s ≤ n')%nat →
  strings.genSplit n s sep = strings.genSplit n' s sep.
Proof.
  intros Hsep. revert n' s. induction n as [|n IH]; intros n' s Hn Hn'.
  - destruct s; [|simpl in Hn; lia].
    destruct n'; [done|]. cbn [strings.genSplit]. by rewrite Index_empty.
  - cbn [strings.genSplit]. destruct (strings.Index s sep) as [m|] eqn:Hi.
    + pose proof (Index_Some _ _ _ Hi) as Hs.
      apply (f_equal String.length) in Hs. rewrite !length_append in Hs.
      assert (0 < String.length sep)%nat by (destruct sep; [done | simpl; lia]).
      destruct n' as [|n']; [lia|]. cbn [strings.genSplit]. rewrite Hi. f_equal.
      apply IH; lia.
    + destruct n'; [done|]. cbn [strings.genSplit]. by rewrite Hi.
Qed.

(** Joining the pieces of a split with the separator restores the
    string. *)
Lemma Join_cons (x : string) (l : list string) (sep : string) :
  l ≠ [] → strings.Join (x :: l) sep = x +:+ sep +:+ strings.Join l sep.
Proof. by destruct l. Qed.

Lemma genSplit_nonempty (n : nat) (s sep : string) : strings.genSplit n s sep ≠ [].
Proof.
  destruct n; [done|]. cbn [strings.genSplit]. by destruct (strings.Index s sep).
Qed.

Lemma Join_genSplit (n : nat) (s sep : string) :
  strings.Join (strings.genSplit n s sep) sep = s.
Proof.
  revert s. induction n as [|n IH]; intros s; [done|]. cbn [strings.genSplit].
  destruct (strings.Index s sep) as [m|] eqn:Hi; [|done].
  rewrite Join_cons by apply genSplit_nonempty.
  rewrite IH. symmetry. by apply Index_Some.
Qed.

Lemma Join_Split (s sep : string) :
  sep ≠ "" → strings.Join (strings.Split s sep) sep = s.
Proof.
  intros Hsep. unfold strings.Split. destruct sep; [done|]. apply Join_genSplit.
Qed.

(** For a one-byte separator that occurs in no value, splitting the
    joined string gives the values back in their order. *)
Lemma Index_byte_append (x t : string) (c : ascii) :
  strings.Index x (String c "") = None →
  strings.Index (x +:+ String c t) (String c "") = Some (String.length x).
Proof.
  induction x as [|a x IH]; rewrite Index_unfold.
  - intros _. rewrite append_nil_l, Index_unfold. simpl.
    by rewrite Ascii.eqb_refl.
  - simpl strings.HasPrefix. rewrite andb_true_r.
    destruct (Ascii.eqb a c) eqn:Hac; [done|].
    destruct (strings.Index x (String c "")) eqn:Hx; [done|]. intros _.
    rewrite append_cons, Index_unfold. simpl strings.HasPrefix.
    rewrite Hac. simpl. by rewrite IH.
Qed.

Lemma genSplit_Join (c : ascii) (vs : list string) (n : nat) :
  vs ≠ [] →
  Forall (λ v, strings.Index v (String c "") = None) vs →
  (String.length (strings.Join vs (String c "")) ≤ n)%nat →
  strings.genSplit n (strings.Join vs (String c "")) (String c "") = vs.
Proof.
  intros Hne Hall. revert n. induction Hall as [|x vs Hx Hall IH]; [done|].
  intros n Hn. destruct vs as [|y vs].
  - simpl strings.Join. destruct n; [done|]. cbn [strings.genSplit]. by rewrite Hx.
  - rewrite Join_cons in * by done.
    remember (strings.Join (y :: vs) (String c "")) as rest eqn:Hrest.
    change (String c "" +:+ rest) with (String c rest) in *.
    rewrite length_append in Hn. simpl String.length in Hn.
    destruct n as [|n]; [lia|]. cbn [strings.genSplit].
    rewrite (Index_byte_append _ _ _ Hx), slice_to_append.
    simpl String.length. rewrite slice_from_append. simpl strings.slice_from.
    f_equal. subst rest. apply IH; [done|lia].
Qed.

Lemma Contains_false (s substr : string) :
  strings.Contains s substr = false ↔ strings.Index s substr = None.
Proof. unfold strings.Contains. by destruct (strings.Index s substr). Qed.

Lemma Split_Join (c : ascii) (vs : list string) :
  vs ≠ [] →
  Forall (λ v, strings.Contains v (String c "") = false) vs →
  strings.Split (strings.Join vs (String c "")) (String c "") = vs.
Proof.
  intros Hne Hall. unfold strings.Split. apply genSplit_Join; [done| |done].
  eapply Forall_impl; [done|]. intros v. by rewrite Contains_false.
Qed.

(** ** [fmt.Sprintf] *)

Lemma Sprintf_plain (s rest : string) (a : list string) :
  plain s = true → fmt.Sprintf (s +:+ rest) a = s +:+ fmt.Sprintf rest a.
Proof.
  unfold plain. induction s as [|c s IH]; [done|].
  simpl forallb. rewrite andb_true_iff, negb_true_iff. intros [Hc Hs].
  rewrite !append_cons. simpl fmt.Sprintf. rewrite Hc. f_equal. by apply IH.
Qed.

Lemma Sprintf_plain_end (s : string) : plain s = true → fmt.Sprintf s [] = s.
Proof.
  intros Hs. rewrite <- (append_nil_r s) at 1.
  rewrite Sprintf_plain by done. simpl. apply append_nil_r.
Qed.

Lemma Sprintf_s (rest x : string) (a : list string) :
  fmt.Sprintf ("%s" +:+ rest) (x :: a) = x +:+ fmt.Sprintf rest a.
Proof. reflexivity. Qed.

(** The template is the page head, the verb inside a [pre] element, and
    the page tail; head and tail hold no verb. *)
Lemma htmlTemplate_parts :
  htmlTemplate = htmlHead +:+ "<pre>%s</pre>" +:+ htmlTail.
Proof. by apply Index_Some. Qed.

Lemma Sprintf_htmlTemplate (j : string) :
  fmt.Sprintf htmlTemplate [j]
  = htmlHead +:+ "<pre>" +:+ j +:+ "</pre>" +:+ htmlTail.
Proof.
  rewrite htmlTemplate_parts.
  change ("<pre>%s</pre>" +:+ htmlTail) with ("<pre>" +:+ "%s" +:+ "</pre>" +:+ htmlTail).
  rewrite <- (append_assoc htmlHead "<pre>").
  rewrite Sprintf_plain by (by vm_compute).
  rewrite Sprintf_s, append_assoc.
  by rewrite Sprintf_plain_end by (by vm_compute).
Qed.

(** ** The response writer *)

Lemma Write_status (w : http.response) (data : string) :
  http.wroteHeader w = false →
  http.status (http.Write w data) = http.StatusOK
  ∧ http.wroteHeader (http.Write w data) = true
  ∧ http.sentHeader (http.Write w data) = http.handlerHeader w
  ∧ http.body (http.Write w data) = http.body w +:+ data.
Proof. intros Hw. unfold http.Write, http.WriteHeader. by rewrite Hw. Qed.

Lemma finishRequest_written (w : http.response) :
  http.wroteHeader w = true → http.finishRequest w = w.
Proof. intros Hw. unfold http.finishRequest. by rewrite Hw. Qed.

Lemma finishRequest_unwritten (w : http.response) :
  http.wroteHeader w = false →
  http.status (http.finishRequest w) = http.StatusOK
  ∧ http.sentHeader (http.finishRequest w) = http.handlerHeader w
  ∧ http.body (http.finishRequest w) = http.body w.
Proof. intros Hw. unfold http.finishRequest, http.WriteHeader. by rewrite Hw. Qed.

Lemma Header_Set_Content_Type (w : http.response) (value : string) :
  http.handlerHeader (http.Header_Set w "Content-Type" value) !! "Content-Type"
  = Some [value].
Proof. unfold http.Header_Set, textproto.Set_. simpl. apply lookup_insert_eq. Qed.

(** ** The program *)
Section Program.
Context {lib : Lib}.
Variable W : World.

Lemma isJSON_spec (r : http.Request) : isJSON r = true ↔ wantsJSON r.
Proof.
  unfold isJSON, wantsJSON. by rewrite orb_true_iff, !Contains_spec.
Qed.

(** The index expression of [callerIP] never panics. *)
Lemma callerIP_Some (r : http.Request) : is_Some (callerIP r).
Proof.
  unfold callerIP. case_decide; [|done].
  rewrite Split_head by done. done.
Qed.

(** What [collectDetails] puts into the record. *)
Lemma collectDetails_spec (r : http.Request) :
  ∃ ip details,
    callerIP r = Some ip
    ∧ collectDetails W r = Some (details, (getPublicIPInfo W ip).2)
    ∧ Headers (Request details) = flattenHeaders (http.Header r)
    ∧ ServerIP (Server details)
      = serverIPLoop (value_or [] (net_InterfaceAddrs W)) ""
    ∧ Interfaces (Server details) = getNetworkInterfaces W
    ∧ IPInfo details = IPInfo (getPublicIPInfo W ip).1.
Proof.
  destruct (callerIP_Some r) as [ip Hip]. exists ip.
  unfold collectDetails. rewrite Hip. simpl.
  destruct (getPublicIPInfo W ip) as [ipDetails logged]. simpl.
  eexists. repeat split.
Qed.

(** Whatever goes into the record, the answer has status 200. *)
Lemma writeResponse_status (r : http.Request) (details : ConnectionDetails) :
  http.status (http.finishRequest (writeResponse http.newResponse r details))
  = http.StatusOK
  ∧ http.wroteHeader
      (http.finishRequest (writeResponse http.newResponse r details)) = true.
Proof.
  unfold writeResponse. destruct (isJSON r).
  - unfold json_Encode. destruct (json_Marshal details); by vm_compute.
  - by vm_compute.
Qed.

Lemma serve_eq (r : http.Request) (details : ConnectionDetails) (logged : list string) :
  collectDetails W r = Some (details, logged) →
  serve W r
  = Some (http.finishRequest (writeResponse http.newResponse r details), logged).
Proof. intros H. unfold serve, connectionHandler. by rewrite H. Qed.

End Program.

(** ** The header loop *)

Lemma flattenHeaders_fmap (h : textproto.MIMEHeader) :
  flattenHeaders h = (λ v, strings.Join v ";") <$> h.
Proof.
  unfold flattenHeaders.
  apply (map_fold_weak_ind
           (λ acc (m : textproto.MIMEHeader), acc = (λ v, strings.Join v ";") <$> m)).
  - by rewrite fmap_empty.
  - intros k v m acc _ ->. by rewrite fmap_insert.
Qed.

(** ** The interface loops *)

Lemma inner_loop_lookup (iface : net.Interface) (name : string)
    (addrs : list net.Addr) (m : gmap string string) :
  foldl (λ interfaces addr, <[net.Name iface := net.Addr_String addr]> interfaces)
        m addrs !! name
  = if decide (net.Name iface = name)
    then match last (net.Addr_String <$> addrs) with
         | Some v => Some v
         | None => m !! name
         end
    else m !! name.
Proof.
  revert m. induction addrs as [|addr addrs IH] using rev_ind; intros m.
  - simpl. by case_decide.
  - rewrite foldl_snoc, fmap_app. cbn [fmap list_fmap]. rewrite last_snoc.
    case_decide as Hn.
    + subst name. by rewrite lookup_insert_eq.
    + rewrite lookup_insert_ne by done. apply IH.
Qed.

Lemma outer_loop_lookup (name : string) (ifaces : list net.Interface)
    (m : gmap string string) :
  foldl (λ interfaces iface,
           match net.Addrs iface with
           | Err _ => interfaces
           | Ok addrs =>
               foldl (λ interfaces addr,
                        <[net.Name iface := net.Addr_String addr]> interfaces)
                     interfaces addrs
           end) m ifaces !! name
  = match last (addressesOf name ifaces) with
    | Some v => Some v
    | None => m !! name
    end.
Proof.
  revert m. induction ifaces as [|iface ifaces IH]; intros m; [done|].
  simpl foldl. rewrite IH. unfold addressesOf. simpl flat_map.
  rewrite last_app. fold (addressesOf name ifaces).
  destruct (last (addressesOf name ifaces)); [done|].
  destruct (net.Addrs iface) as [addrs|e].
  - rewrite inner_loop_lookup. by case_decide.
  - by case_decide.
Qed.

(** When interface names are not repeated, the addresses enumerated
    under the name of an interface are the addresses of that interface. *)
Lemma addressesOf_other (name : string) (ifaces : list net.Interface) :
  name ∉ net.Name <$> ifaces → addressesOf name ifaces = [].
Proof.
  induction ifaces as [|i ifaces IH]; [done|].
  rewrite fmap_cons, not_elem_of_cons. intros [Hne Hrest].
  unfold addressesOf. simpl flat_map. rewrite decide_False by done.
  by apply IH.
Qed.

Lemma addressesOf_unique (ifaces : list net.Interface) (iface : net.Interface) :
  NoDup (net.Name <$> ifaces) → iface ∈ ifaces →
  addressesOf (net.Name iface) ifaces
  = match net.Addrs iface with
    | Ok addrs => net.Addr_String <$> addrs
    | Err _ => []
    end.
Proof.
  induction ifaces as [|i ifaces IH]; [by intros _ ?%elem_of_nil|].
  rewrite fmap_cons, NoDup_cons, elem_of_cons. intros [Hi Hnodup] [->|Hin].
  - unfold addressesOf. simpl flat_map. rewrite decide_True by done.
    fold (addressesOf (net.Name i) ifaces).
    rewrite addressesOf_other by done. apply app_nil_r.
  - unfold addressesOf. simpl flat_map. rewrite decide_False.
    + by apply IH.
    + intros Heq. apply Hi. rewrite Heq. by apply list_elem_of_fmap_2.
Qed.

(** ** The server-IP loop *)

Lemma serverIPLoop_none (addrs : list net.Addr) (serverIP : string) :
  Forall (λ a, nonLoopbackIPv4 a = false) addrs →
  serverIPLoop addrs serverIP = serverIP.
Proof.
  induction 1 as [|addr addrs Haddr _ IH]; [done|].
  simpl. unfold nonLoopbackIPv4 in Haddr.
  destruct (net.Addr_IPNet addr) as [ipnet|]; [|done].
  destruct (net.IsLoopback (net.IPNet_IP ipnet)); simpl in *; [done|].
  destruct (net.To4 (net.IPNet_IP ipnet)) as [p4|]; [|done].
  rewrite bool_decide_eq_false in Haddr. by destruct Haddr.
Qed.

Lemma serverIPLoop_first (before after : list net.Addr) (addr : net.Addr)
    (serverIP : string) :
  Forall (λ a, nonLoopbackIPv4 a = false) before →
  nonLoopbackIPv4 addr = true →
  ∃ ipnet p4,
    net.Addr_IPNet addr = Some ipnet
    ∧ net.To4 (net.IPNet_IP ipnet) = Some p4
    ∧ net.IsLoopback (net.IPNet_IP ipnet) = false
    ∧ serverIPLoop (before ++ addr :: after) serverIP
      = net.IP_String (net.IPNet_IP ipnet).
Proof.
  intros Hbefore Haddr. unfold nonLoopbackIPv4 in Haddr.
  destruct (net.Addr_IPNet addr) as [ipnet|] eqn:Hnet; [|done].
  apply andb_true_iff in Haddr as [Hlo H4].
  apply negb_true_iff in Hlo. apply bool_decide_eq_true in H4 as [p4 H4].
  exists ipnet, p4. repeat split; try done.
  induction Hbefore as [|b before Hb _ IH]; simpl.
  - by rewrite Hnet, Hlo, H4.
  - unfold nonLoopbackIPv4 in Hb.
    destruct (net.Addr_IPNet b) as [bnet|]; [|done].
    destruct (net.IsLoopback (net.IPNet_IP bnet)); simpl in *; [done|].
    destruct (net.To4 (net.IPNet_IP bnet)); [|done].
    rewrite bool_decide_eq_false in Hb. by destruct Hb.
Qed.

(** An address with a 4-byte form is written in dotted decimal. *)
Lemma IP_String_To4 (ip p4 : net.IP) :
  net.To4 ip = Some p4 → net.IP_String ip = net.string4 p4.
Proof.
  unfold net.IP_String, net.To4.
  destruct (length ip =? 4)%nat eqn:H4.
  - intros [= <-]. apply Nat.eqb_eq in H4. rewrite H4. by simpl.
  - destruct (length ip =? 16)%nat eqn:H16; simpl; [|done].
    apply Nat.eqb_eq in H16. rewrite H16. simpl.
    destruct (net.isZeros (take 10 ip) && net.byteIs ip 10 xff && net.byteIs ip 11 xff);
      [by intros [= <-] | done].
Qed.

(** ** The two representations *)
Section Representations.
Context {lib : Lib}.

Lemma writeResponse_json (r : http.Request) (details : ConnectionDetails) :
  isJSON r = true →
  http.sentHeader (http.finishRequest (writeResponse http.newResponse r details))
    !! "Content-Type" = Some ["application/json"]
  ∧ ∀ j, json_Marshal details = Ok j →
         http.body (http.finishRequest (writeResponse http.newResponse r details))
         = j +:+ newline.
Proof.
  intros Hjson. unfold writeResponse. rewrite Hjson. unfold json_Encode.
  set (w := http.Header_Set http.newResponse "Content-Type" "application/json").
  assert (http.wroteHeader w = false) as Hw by done.
  destruct (json_Marshal details) as [b|e].
  - destruct (Write_status w (b +:+ newline) Hw) as (_ & Hwrote & Hsent & Hbody).
    rewrite finishRequest_written by done. rewrite Hsent, Hbody. split.
    + apply Header_Set_Content_Type.
    + by intros j [= ->].
  - destruct (finishRequest_unwritten w Hw) as (_ & Hsent & _).
    rewrite Hsent. split; [apply Header_Set_Content_Type | done].
Qed.

Lemma writeResponse_html (r : http.Request) (details : ConnectionDetails) :
  isJSON r = false →
  http.sentHeader (http.finishRequest (writeResponse http.newResponse r details))
    !! "Content-Type" = Some ["text/html"]
  ∧ ∀ j, json_MarshalIndent details "" "  " = Ok j →
         http.body (http.finishRequest (writeResponse http.newResponse r details))
         = htmlHead +:+ "<pre>" +:+ j +:+ "</pre>" +:+ htmlTail.
Proof.
  intros Hjson. unfold writeResponse. rewrite Hjson. unfold http.Fprintf.
  set (w := http.Header_Set http.newResponse "Content-Type" "text/html").
  assert (http.wroteHeader w = false) as Hw by done.
  set (page := fmt.Sprintf htmlTemplate _).
  destruct (Write_status w page Hw) as (_ & Hwrote & Hsent & Hbody).
  rewrite finishRequest_written by done. rewrite Hsent, Hbody. split.
  - apply Header_Set_Content_Type.
  - intros j Hj. subst page. rewrite Hj. simpl value_or.
    rewrite Sprintf_htmlTemplate. done.
Qed.

End Representations.

(** ** The pattern table that [main] builds *)
Section Routing.
Context {lib : Lib}.
Variable W : World.

Lemma main_eq (net_Listen : string → result ()) :
  main W net_Listen
  = Some ("Server starting on port "
            +:+ (if decide (os_Getenv W "PORT" = "") then "3100"
                 else os_Getenv W "PORT") +:+ newline,
          match net_Listen (":" +:+ (if decide (os_Getenv W "PORT" = "") then "3100"
                                     else os_Getenv W "PORT")) with
          | Err err => Exited 1 [err]
          | Ok _ =>
              Serving
                (":" +:+ (if decide (os_Getenv W "PORT" = "") then "3100"
                          else os_Getenv W "PORT"))
                {| http.mux_m :=
                     {["/" := {| http.entry_h := connectionHandler W;
                                 http.entry_pattern := "/" |}]};
                   http.mux_es :=
                     [{| http.entry_h := connectionHandler W;
                         http.entry_pattern := "/" |}] |}
          end).
Proof.
  unfold main. simpl.
  by destruct (net_Listen _).
Qed.

Lemma match_root_pattern (mux : http.ServeMux) (e : http.muxEntry) (path : string) :
  http.mux_m mux = {["/" := e]} → http.mux_es mux = [e] →
  http.entry_pattern e = "/" →
  strings.HasPrefix path "/" = true →
  http.match_ mux path = Some e.
Proof.
  intros Hm Hes Hpat Hpath. unfold http.match_. rewrite Hm, Hes.
  destruct ({["/" := e]} !! path) as [v|] eqn:Hv.
  - apply lookup_singleton_Some in Hv as [_ ->]. done.
  - simpl. by rewrite Hpat, Hpath.
Qed.

(** A table whose only pattern is [/] never asks for the redirect that
    adds a slash. *)
Lemma shouldRedirect_root (mux : http.ServeMux) (e : http.muxEntry) (path : string) :
  http.mux_m mux = {["/" := e]} → http.shouldRedirect mux path = false.
Proof.
  intros Hm. unfold http.shouldRedirect. rewrite Hm.
  destruct ({["/" := e]} !! path); [done|]. case_decide as Hpath; [done|].
  destruct ({["/" := e]} !! (path +:+ "/")) eqn:Hv; [|done].
  apply lookup_singleton_Some in Hv as [Heq _].
  destruct path as [|a [|b path]]; try done.
Qed.

(** The canonical form of a path is rooted. *)
Lemma cleanPath_rooted (p : string) :
  strings.HasPrefix (http.cleanPath p) "/" = true.
Proof.
  unfold http.cleanPath. case_decide; [done|].
  set (p' := if strings.HasPrefix p "/" then p else "/" +:+ p).
  assert (strings.HasPrefix p' "/" = true) as Hp'.
  { subst p'. by destruct (strings.HasPrefix p "/") eqn:Hp. }
  assert (∃ out, path.Clean p' = "/" +:+ out) as [out ->].
  { unfold path.Clean. rewrite Hp'. eauto. }
  destruct (http.endsInSlash p' && _); [|done].
  by destruct (_ && _).
Qed.

(** With the table of [main], a request whose path is in canonical form
    is handed to the handler, whatever its method. *)
Lemma ServeHTTP_root (mux : http.ServeMux) (e : http.muxEntry) (r : http.Request) :
  http.mux_m mux = {["/" := e]} → http.mux_es mux = [e] →
  http.entry_pattern e = "/" →
  http.cleanPath (http.URL_Path r) = http.URL_Path r →
  http.ServeHTTP mux http.newResponse r
  = http.Ran "/" ('(w, logged) ← http.entry_h e http.newResponse r;
                  Some (http.finishRequest w, logged)).
Proof.
  intros Hm Hes Hpat Hclean.
  pose proof (cleanPath_rooted (http.URL_Path r)) as Hrooted.
  rewrite Hclean in Hrooted.
  unfold http.ServeHTTP. case_decide as Hstar.
  { by rewrite Hstar in Hrooted. }
  assert (http.Handler_of mux r = http.RunEntry e) as ->.
  { unfold http.Handler_of. rewrite Hclean.
    rewrite !(shouldRedirect_root mux e) by done.
    unfold http.handler. rewrite (match_root_pattern mux e) by done.
    case_decide; [done|]. by case_decide. }
  by rewrite Hpat.
Qed.

Lemma server_runs_handler (net_Listen : string → result ())
    (printed addr : string) (mux : http.ServeMux) (r : http.Request) :
  main W net_Listen = Some (printed, Serving addr mux) →
  http.cleanPath (http.URL_Path r) = http.URL_Path r →
  server W net_Listen r = Some (http.Ran "/" (serve W r)).
Proof.
  intros Hmain Hclean. unfold server. rewrite Hmain. simpl.
  rewrite main_eq in Hmain.
  destruct (net_Listen _); [|done]. injection Hmain as _ _ <-.
  by rewrite (ServeHTTP_root _
                {| http.entry_h := connectionHandler W; http.entry_pattern := "/" |}).
Qed.

End Routing.

(** * Properties of the program *)

Lemma canonical_forwarded_for :
  textproto.CanonicalMIMEHeaderKey "X-Forwarded-For" = "X-Forwarded-For".
Proof. reflexivity. Qed.

Section Claims.
Context {lib : Lib}.
Variable W : World.

(** The geo-record after a failed lookup. *)
Lemma geo_failure_empty (ip : string) :
  geoLookupFails W ip → IPInfo (getPublicIPInfo W ip).1 = emptyGeoRecord ip.
Proof.
  unfold geoLookupFails, getPublicIPInfo.
  intros [[e He] | [Hparse | (db & parsedIP & e & Hopen & Hparse & Hcity)]].
  - by rewrite He.
  - rewrite Hparse. by destruct (geoip2_Open W "GeoLite2-City.mmdb").
  - by rewrite Hopen, Hparse, Hcity.
Qed.

(** C1.  Every request is answered with status 200 and a body made from
    the record the handler assembled.  The host [W] and the library [lib]
    are arbitrary, so the hostname lookup, the interface enumerations, the
    opening of the database, the parsing of the address and the lookup may
    each fail: the handler still returns (it does not panic) and the status
    is 200.  The record is the best that could be found out: the request
    part echoes the request; the hostname, the interface mapping and the
    server IP are what the host answered and empty where it answered with
    an error; the geo-record is that of the caller IP and is empty (except
    for [public_ip]) when the lookup failed; the system part is what the
    runtime reports.  The body is the encoding of this record: in JSON
    mode the encoding and a newline, otherwise the page of [htmlTemplate]
    with the indented encoding in its [pre] element (and nothing where the
    encoder returned an error). *)
Theorem handler_always_answers_200 (r : http.Request) :
  ∃ ip details logged w,
    callerIP r = Some ip
    ∧ collectDetails W r = Some (details, logged)
    ∧ serve W r = Some (w, logged)
    ∧ http.wroteHeader w = true
    ∧ http.status w = http.StatusOK
    ∧ Request details
      = {| RemoteAddr := http.RemoteAddr r;
           Host := http.Host r;
           Method := http.Method r;
           UserAgent := http.UserAgent r;
           ForwardedFor := textproto.Get (http.Header r) "X-Forwarded-For";
           Headers := (λ vs, strings.Join vs ";") <$> http.Header r |}
    ∧ Hostname (Server details)
      = match os_Hostname W with Ok name => name | Err _ => "" end
    ∧ Interfaces (Server details) = getNetworkInterfaces W
    ∧ (∀ e, net_Interfaces W = Err e → Interfaces (Server details) = ∅)
    ∧ ServerIP (Server details)
      = match net_InterfaceAddrs W with
        | Ok addrs => serverIPLoop addrs ""
        | Err _ => ""
        end
    ∧ IPInfo details = IPInfo (getPublicIPInfo W ip).1
    ∧ PublicIP (IPInfo details) = ip
    ∧ (geoLookupFails W ip → IPInfo details = emptyGeoRecord ip)
    ∧ System details
      = {| OS := {| Platform := runtime_GOOS W;
                    Arch := runtime_GOARCH W;
                    GoVersion := runtime_Version W;
                    CPUNum := runtime_NumCPU W;
                    Memory := humanize_Bytes (runtime_MemStats_Sys W) |} |}
    ∧ (wantsJSON r →
       http.body w
       = match json_Marshal details with
         | Ok j => j +:+ newline
         | Err _ => ""
         end)
    ∧ (¬ wantsJSON r →
       http.body w
       = htmlHead +:+ "<pre>"
         +:+ match json_MarshalIndent details "" "  " with
             | Ok j => j
             | Err _ => ""
             end
         +:+ "</pre>" +:+ htmlTail).
Proof.
  destruct (callerIP_Some r) as [ip Hip].
  assert (∃ details,
            collectDetails W r = Some (details, (getPublicIPInfo W ip).2)
            ∧ Request details
              = {| RemoteAddr := http.RemoteAddr r;
                   Host := http.Host r;
                   Method := http.Method r;
                   UserAgent := http.UserAgent r;
                   ForwardedFor := textproto.Get (http.Header r) "X-Forwarded-For";
                   Headers := flattenHeaders (http.Header r) |}
            ∧ Server details
              = {| Hostname := value_or "" (os_Hostname W);
                   ServerIP := serverIPLoop (value_or [] (net_InterfaceAddrs W)) "";
                   Interfaces := getNetworkInterfaces W |}
            ∧ IPInfo details = IPInfo (getPublicIPInfo W ip).1
            ∧ System details
              = {| OS := {| Platform := runtime_GOOS W;
                            Arch := runtime_GOARCH W;
                            GoVersion := runtime_Version W;
                            CPUNum := runtime_NumCPU W;
                            Memory := humanize_Bytes (runtime_MemStats_Sys W) |} |})
    as (details & Hd & Hreq & Hsrv & Hgeo & Hsys).
  { unfold collectDetails. rewrite Hip. simpl.
    destruct (getPublicIPInfo W ip) as [ipDetails logged]. simpl.
    eexists. repeat split. }
  exists ip, details, (getPublicIPInfo W ip).2. eexists.
  destruct (writeResponse_status r details) as [Hs Hw].
  split; [done|]. split; [done|]. split; [by apply serve_eq|].
  split; [done|]. split; [done|].
  split; [by rewrite Hreq, flattenHeaders_fmap|].
  split; [rewrite Hsrv; simpl; by destruct (os_Hostname W)|].
  split; [by rewrite Hsrv|].
  split.
  { intros e He. rewrite Hsrv. simpl. unfold getNetworkInterfaces. by rewrite He. }
  split; [rewrite Hsrv; simpl; by destruct (net_InterfaceAddrs W)|].
  split; [done|].
  split.
  { rewrite Hgeo. unfold getPublicIPInfo.
    destruct (geoip2_Open W "GeoLite2-City.mmdb") as [db|]; [|done].
    destruct (net_ParseIP ip) as [parsedIP|]; [|done].
    by destruct (geoip2.Reader_City db parsedIP). }
  split; [intros Hfail; rewrite Hgeo; by apply geo_failure_empty|].
  split; [done|].
  split.
  - intros Hjson%isJSON_spec.
    destruct (json_Marshal details) as [j|e] eqn:Hj.
    + by apply (writeResponse_json r details Hjson).
    + unfold writeResponse, json_Encode. by rewrite Hjson, Hj.
  - intros Hhtml.
    assert (isJSON r = false) as Hjson.
    { destruct (isJSON r) eqn:H; [|done]. by apply isJSON_spec in H. }
    destruct (json_MarshalIndent details "" "  ") as [j|e] eqn:Hj.
    + by apply (writeResponse_html r details Hjson).
    + unfold writeResponse, http.Fprintf. rewrite Hjson, Hj. simpl value_or.
      set (w0 := http.Header_Set http.newResponse "Content-Type" "text/html").
      destruct (Write_status w0 (fmt.Sprintf htmlTemplate [""]) eq_refl)
        as (_ & Hwrote & _ & Hbody).
      rewrite finishRequest_written by done.
      by rewrite Hbody, Sprintf_htmlTemplate.
Qed.

(** C2.  The response has content type [application/json] exactly when
    the [Accept] header contains [application/json] or the user-agent
    string contains [curl]; its body is then the encoded record followed by
    a newline.  Otherwise the content type is [text/html] and the body is
    the page of [htmlTemplate] with the indented encoding of the record
    between [<pre>] and [</pre>]. *)
Theorem response_is_json_iff_requested (r : http.Request) :
  ∃ details logged w,
    collectDetails W r = Some (details, logged)
    ∧ serve W r = Some (w, logged)
    ∧ (http.sentHeader w !! "Content-Type" = Some ["application/json"]
       ↔ wantsJSON r)
    ∧ (wantsJSON r →
       ∀ j, json_Marshal details = Ok j →
            http.body w = j +:+ newline)
    ∧ (¬ wantsJSON r →
       http.sentHeader w !! "Content-Type" = Some ["text/html"]
       ∧ ∀ j, json_MarshalIndent details "" "  " = Ok j →
              http.body w = htmlHead +:+ "<pre>" +:+ j +:+ "</pre>" +:+ htmlTail)
    ∧ htmlTemplate = htmlHead +:+ "<pre>%s</pre>" +:+ htmlTail.
Proof.
  destruct (collectDetails_spec W r) as (ip & details & _ & Hd & _).
  exists details, (getPublicIPInfo W ip).2. eexists.
  split; [done|]. split; [by apply serve_eq|].
  destruct (isJSON r) eqn:Hjson.
  - destruct (writeResponse_json r details Hjson) as [Hct Hbody].
    apply isJSON_spec in Hjson. pose proof htmlTemplate_parts.
    repeat split; try done.
  - destruct (writeResponse_html r details Hjson) as [Hct Hbody].
    assert (¬ wantsJSON r) as Hno.
    { rewrite <- isJSON_spec. by rewrite Hjson. }
    pose proof htmlTemplate_parts.
    split; [|done]. rewrite Hct. split; [done | by intros ?].
Qed.

(** C4.  When the database cannot be opened, or the string does not parse
    as an IP address, or the lookup returns an error, [getPublicIPInfo]
    returns the record in which everything is at its zero value except
    [public_ip], which is the input string.  The function has no error
    result. *)
Theorem failed_geo_lookup_gives_empty_record (ip : string) :
  geoLookupFails W ip →
  (getPublicIPInfo W ip).1
  = {| Request := zeroRequest; Server := zeroServer;
       IPInfo := emptyGeoRecord ip; System := zeroSystem |}.
Proof.
  unfold geoLookupFails, getPublicIPInfo.
  intros [[e He] | [Hparse | (db & parsedIP & e & Hopen & Hparse & Hcity)]].
  - by rewrite He.
  - rewrite Hparse. by destruct (geoip2_Open W "GeoLite2-City.mmdb").
  - by rewrite Hopen, Hparse, Hcity.
Qed.

(** C5.  The [headers] mapping of the report has an entry for every key
    of the request's header map and no other; the entry is the values of
    that header joined with [;] in their order, so that splitting it at [;]
    gives the values back (when no value contains [;] itself). *)
Theorem headers_flattened_in_order (r : http.Request) :
  ∃ details logged,
    collectDetails W r = Some (details, logged)
    ∧ (∀ k, Headers (Request details) !! k
            = (λ vs, strings.Join vs ";") <$> http.Header r !! k)
    ∧ (∀ k vs,
         http.Header r !! k = Some vs → vs ≠ [] →
         Forall (λ v, strings.Contains v ";" = false) vs →
         ∃ joined, Headers (Request details) !! k = Some joined
                   ∧ strings.Split joined ";" = vs).
Proof.
  destruct (collectDetails_spec W r) as (ip & details & _ & Hd & Hh & _).
  exists details, (getPublicIPInfo W ip).2. split; [done|].
  rewrite Hh, flattenHeaders_fmap. split.
  - intros k. apply lookup_fmap.
  - intros k vs Hk Hne Hall. exists (strings.Join vs ";").
    rewrite lookup_fmap, Hk. split; [done|]. by apply Split_Join.
Qed.

(** C6.  When the interfaces cannot be listed the mapping is empty.
    Otherwise each name is mapped to the last address string enumerated
    for the interface of that name, where an interface whose addresses
    cannot be enumerated contributes nothing; a name for which nothing was
    enumerated has no entry.  In particular, when no interface name is
    repeated, an interface is mapped to its own last address, and an
    interface whose addresses cannot be enumerated has no entry. *)
Theorem interfaces_keep_last_address :
  match net_Interfaces W with
  | Err _ => getNetworkInterfaces W = ∅
  | Ok ifaces =>
      (∀ name, getNetworkInterfaces W !! name = last (addressesOf name ifaces))
      ∧ (NoDup (net.Name <$> ifaces) →
         ∀ iface, iface ∈ ifaces →
           match net.Addrs iface with
           | Ok addrs =>
               getNetworkInterfaces W !! net.Name iface
               = last (net.Addr_String <$> addrs)
           | Err _ => getNetworkInterfaces W !! net.Name iface = None
           end)
  end.
Proof.
  unfold getNetworkInterfaces. destruct (net_Interfaces W) as [ifaces|e]; [|done].
  assert (∀ name,
            foldl (λ interfaces iface,
                     match net.Addrs iface with
                     | Err _ => interfaces
                     | Ok addrs =>
                         foldl (λ interfaces addr,
                                  <[net.Name iface := net.Addr_String addr]> interfaces)
                               interfaces addrs
                     end) (∅ : gmap string string) ifaces !! name
            = last (addressesOf name ifaces)) as Hlookup.
  { intros name. rewrite outer_loop_lookup.
    by destruct (last (addressesOf name ifaces)). }
  split; [done|]. intros Hnodup iface Hin.
  rewrite Hlookup, (addressesOf_unique _ _ Hnodup Hin).
  by destruct (net.Addrs iface).
Qed.

(** C7.  [server_ip] is the text, in dotted decimal, of the first
    non-loopback IPv4 address in the list of interface addresses: the
    address before which no non-loopback IPv4 address stands.  It is empty
    when the list has no such address, and when the list cannot be
    obtained. *)
Theorem server_ip_first_non_loopback_ipv4 (r : http.Request) :
  ∃ details logged,
    collectDetails W r = Some (details, logged)
    ∧ match net_InterfaceAddrs W with
      | Err _ => ServerIP (Server details) = ""
      | Ok addrs =>
          (∀ before addr after,
             addrs = before ++ addr :: after →
             Forall (λ a, nonLoopbackIPv4 a = false) before →
             nonLoopbackIPv4 addr = true →
             ∃ ipnet p4,
               net.Addr_IPNet addr = Some ipnet
               ∧ net.To4 (net.IPNet_IP ipnet) = Some p4
               ∧ ServerIP (Server details) = net.IP_String (net.IPNet_IP ipnet)
               ∧ ServerIP (Server details) = net.string4 p4)
          ∧ (Forall (λ a, nonLoopbackIPv4 a = false) addrs →
             ServerIP (Server details) = "")
      end.
Proof.
  destruct (collectDetails_spec W r) as (ip & details & _ & Hd & _ & Hs & _).
  exists details, (getPublicIPInfo W ip).2. split; [done|].
  rewrite Hs. destruct (net_InterfaceAddrs W) as [addrs|e]; simpl; [|done].
  split.
  - intros before addr after -> Hbefore Haddr.
    destruct (serverIPLoop_first before after addr "" Hbefore Haddr)
      as (ipnet & p4 & Hnet & H4 & _ & Hloop).
    exists ipnet, p4. repeat split; try done.
    rewrite Hloop. by apply IP_String_To4.
  - apply serverIPLoop_none.
Qed.

(** C8.  Whatever the input string and whatever the database does, the
    [org] field of the record returned by [getPublicIPInfo] is empty. *)
Theorem organization_always_empty (ip : string) :
  Organization (IPInfo (getPublicIPInfo W ip).1) = "".
Proof.
  unfold getPublicIPInfo.
  destruct (geoip2_Open W "GeoLite2-City.mmdb") as [db|e]; [|done].
  destruct (net_ParseIP ip) as [parsedIP|]; [|done].
  by destruct (geoip2.Reader_City db parsedIP).
Qed.

(** C9, as amended.  The table that [main] serves holds exactly one
    pattern, [/], registered without a method.  The running server hands
    every request whose path is in canonical form (rooted, without empty,
    [.] or [..] elements) to the handler, whatever the method of the
    request and whatever follows the first slash, and answers with what the
    handler answers. *)
Theorem root_pattern_serves_every_path_and_method
    (net_Listen : string → result ()) (printed addr : string)
    (mux : http.ServeMux) :
  main W net_Listen = Some (printed, Serving addr mux) →
  dom (http.mux_m mux) = ({["/"]} : gset string)
  ∧ ∀ r, http.cleanPath (http.URL_Path r) = http.URL_Path r →
         servedByHandler W net_Listen r.
Proof.
  intros Hmain. split.
  - rewrite main_eq in Hmain. destruct (net_Listen _); [|done].
    injection Hmain as _ _ <-. simpl. apply dom_singleton_L.
  - intros r Hclean. by apply (server_runs_handler W net_Listen printed addr mux).
Qed.

(** C10.  A request whose [X-Forwarded-For] header is present with an
    empty (first) value gets its caller IP from the remote address, the
    same caller IP and the same geo-record as the request without that
    header. *)
Theorem empty_forwarded_for_like_absent (r : http.Request) (rest : list string) :
  http.Header r !! "X-Forwarded-For" = Some ("" :: rest) →
  callerIP r = strings.Split (http.RemoteAddr r) ":" !! 0%nat
  ∧ callerIP r = callerIP (withoutForwardedFor r)
  ∧ (λ x, IPInfo x.1) <$> collectDetails W r
    = (λ x, IPInfo x.1) <$> collectDetails W (withoutForwardedFor r).
Proof.
  intros Hxff.
  assert (callerIP r = strings.Split (http.RemoteAddr r) ":" !! 0%nat) as Hr.
  { unfold callerIP, textproto.Get. by rewrite canonical_forwarded_for, Hxff. }
  assert (callerIP (withoutForwardedFor r)
          = strings.Split (http.RemoteAddr r) ":" !! 0%nat) as Hr'.
  { unfold callerIP, textproto.Get, withoutForwardedFor. simpl.
    by rewrite canonical_forwarded_for, lookup_delete_eq. }
  split; [done|]. split; [congruence|].
  destruct (collectDetails_spec W r) as (ip & d & Hip & -> & _ & _ & _ & Hi).
  destruct (collectDetails_spec W (withoutForwardedFor r))
    as (ip' & d' & Hip' & -> & _ & _ & _ & Hi').
  simpl. rewrite Hi, Hi'. congruence.
Qed.

End Claims.

(** ** The caller IP *)
Section CallerIP.

(** A non-empty forwarded-for value is used as it is. *)
Lemma callerIP_forwarded (r : http.Request) :
  textproto.Get (http.Header r) "X-Forwarded-For" ≠ "" →
  callerIP r = Some (textproto.Get (http.Header r) "X-Forwarded-For").
Proof. intros Hne. unfold callerIP. by case_decide. Qed.

Lemma lastIndexByte_None (s : string) (c : ascii) :
  strings.Index s (String c "") = None → lastIndexByte s c = None.
Proof.
  induction s as [|a s IH]; [done|]. rewrite Index_unfold.
  simpl strings.HasPrefix. rewrite andb_true_r.
  destruct (Ascii.eqb a c) eqn:Hac; [done|].
  destruct (strings.Index s (String c "")); [done|]. intros _.
  simpl. by rewrite IH, Hac.
Qed.

Lemma lastIndexByte_append (host port : string) (c : ascii) :
  strings.Index port (String c "") = None →
  lastIndexByte (host +:+ String c port) c = Some (String.length host).
Proof.
  intros Hport. induction host as [|a host IH].
  - rewrite append_nil_l. simpl.
    by rewrite (lastIndexByte_None _ _ Hport), Ascii.eqb_refl.
  - rewrite append_cons. simpl. by rewrite IH.
Qed.

(** Without a forwarded-for value and with a remote address [host:port]
    whose host holds no colon (an IPv4 address or a name), the caller IP is
    the host, which is the remote address stripped of its port. *)
Lemma callerIP_host_port (r : http.Request) (host port : string) :
  textproto.Get (http.Header r) "X-Forwarded-For" = "" →
  http.RemoteAddr r = host +:+ ":" +:+ port →
  strings.Contains host ":" = false →
  strings.Contains port ":" = false →
  callerIP r = Some host
  ∧ strippedOfPort (http.RemoteAddr r) = host.
Proof.
  intros Hxff Haddr Hhost Hport. unfold callerIP, strippedOfPort.
  rewrite Hxff, Haddr.
  rewrite decide_True by done. rewrite Split_head by done.
  apply Contains_false in Hhost. apply Contains_false in Hport.
  change (":" +:+ port) with (String ":"%char port).
  rewrite (Index_byte_append _ _ _ Hhost), (lastIndexByte_append _ _ _ Hport).
  by rewrite slice_to_append.
Qed.

End CallerIP.

(** C3.  The remote address of an IPv6 client has the form
    [[2001:db8::1]:51234].  Stripped of its port it is the bracketed
    address; the handler cuts it at the first colon instead and hands the
    fragment before that colon to the geolocation lookup, and the report
    shows the fragment as [public_ip]. *)
Theorem callerIP_ipv6_remote_addr :
  textproto.Get (http.Header ipv6Request) "X-Forwarded-For" = ""
  ∧ strippedOfPort (http.RemoteAddr ipv6Request) = "[2001:db8::1]"
  ∧ callerIP ipv6Request = Some "[2001"
  ∧ (λ x, PublicIP (IPInfo x.1)) <$> @collectDetails sampleLib sampleWorld ipv6Request
    = Some "[2001".
Proof. by vm_compute. Qed.

(** C4, at three inputs: the database file is missing; the string is not
    an IP address; the address is not in the database. *)
Lemma failed_geo_lookup_gives_empty_record_witness :
  (@getPublicIPInfo sampleLib worldWithoutDB "8.8.8.8").1
  = {| Request := zeroRequest; Server := zeroServer;
       IPInfo := emptyGeoRecord "8.8.8.8"; System := zeroSystem |}
  ∧ (@getPublicIPInfo sampleLib sampleWorld "not-an-ip").1
    = {| Request := zeroRequest; Server := zeroServer;
         IPInfo := emptyGeoRecord "not-an-ip"; System := zeroSystem |}
  ∧ (@getPublicIPInfo sampleLib sampleWorld "10.1.2.3").1
    = {| Request := zeroRequest; Server := zeroServer;
         IPInfo := emptyGeoRecord "10.1.2.3"; System := zeroSystem |}.
Proof.
  split; [|split].
  - apply (@failed_geo_lookup_gives_empty_record sampleLib worldWithoutDB "8.8.8.8").
    left. eexists. reflexivity.
  - apply (@failed_geo_lookup_gives_empty_record sampleLib sampleWorld "not-an-ip").
    right. left. reflexivity.
  - apply (@failed_geo_lookup_gives_empty_record sampleLib sampleWorld "10.1.2.3").
    right. right. exists sampleReader, [x0a; x01; x02; x03], "address not found".
    repeat split; reflexivity.
Defined.

(** C9, as stated, fails: the running server hands [POST /status] to the
    handler and answers with what the handler answers, so the handler does
    not serve only [GET] requests to the root path. *)
Lemma handler_serves_other_methods_and_paths :
  ¬ (∀ r, @servedByHandler sampleLib sampleWorld listenOk r →
          http.Method r = "GET" ∧ http.URL_Path r = "/").
Proof.
  intros Honly.
  destruct (Honly postStatusRequest) as [Hmethod _].
  - by apply (server_runs_handler sampleWorld listenOk
                ("Server starting on port 3100" +:+ newline) ":3100" sampleMux).
  - discriminate Hmethod.
Qed.

(** C9, on the sample host when it lets the process listen. *)
Lemma root_pattern_serves_every_path_and_method_witness :
  dom (http.mux_m sampleMux) = ({["/"]} : gset string)
  ∧ ∀ r, http.cleanPath (http.URL_Path r) = http.URL_Path r →
         @servedByHandler sampleLib sampleWorld listenOk r.
Proof.
  apply (@root_pattern_serves_every_path_and_method sampleLib sampleWorld
           listenOk ("Server starting on port 3100" +:+ newline) ":3100" sampleMux).
  reflexivity.
Defined.

(** C5, as stated, fails: [curl] sends a [Host] header, the server moves
    it to the host of the request, and the mapping has no entry for it. *)
Lemma sent_host_header_has_no_entry :
  ¬ (∀ lines r details logged,
       http.readRequest "GET" "/" "203.0.113.9:51234" lines = Some r →
       @collectDetails sampleLib sampleWorld r = Some (details, logged) →
       ∀ name value,
         (name, value) ∈ lines →
         is_Some (Headers (Request details)
                    !! textproto.CanonicalMIMEHeaderKey name)).
Proof.
  intros Hall.
  destruct (@collectDetails_spec sampleLib sampleWorld curlRequest)
    as (ip & details & _ & Hd & Hh & _).
  destruct (Hall curlLines curlRequest details _ eq_refl Hd "Host" "example.org")
    as [v Hv].
  - apply elem_of_cons. by left.
  - rewrite Hh, flattenHeaders_fmap, lookup_fmap in Hv. by vm_compute in Hv.
Qed.

(** C10, at a request with [X-Forwarded-For:] and nothing after the
    colon. *)
Lemma empty_forwarded_for_like_absent_witness :
  callerIP emptyForwardedRequest
  = strings.Split (http.RemoteAddr emptyForwardedRequest) ":" !! 0%nat
  ∧ callerIP emptyForwardedRequest
    = callerIP (withoutForwardedFor emptyForwardedRequest)
  ∧ (λ x, IPInfo x.1) <$> @collectDetails sampleLib sampleWorld emptyForwardedRequest
    = (λ x, IPInfo x.1)
        <$> @collectDetails sampleLib sampleWorld
              (withoutForwardedFor emptyForwardedRequest).
Proof.
  apply (@empty_forwarded_for_like_absent sampleLib sampleWorld
           emptyForwardedRequest []).
  reflexivity.
Defined.

(** ** The program on the sample host *)

Example forwarded_request_report :
  (λ x, (IPInfo x.1, ServerIP (Server x.1),
         map_to_list (Headers (Request x.1)),
         map_to_list (Interfaces (Server x.1)), x.2))
    <$> @collectDetails sampleLib sampleWorld forwardedRequest
  = Some ({| PublicIP := "8.8.8.8"; CountryCode := "US";
             Country := "United States"; City := "Mountain View";
             Latitude := 37%float; Longitude := (-122)%float;
             Organization := ""; PostalCode := "94043" |},
          "192.168.1.10",
          [("Accept", "application/json"); ("Via", "1.1 a;1.1 b");
           ("X-Forwarded-For", "8.8.8.8")],
          [("eth0", "fe80::1/64"); ("lo", "::1/128")],
          []).
Proof. by vm_compute. Qed.

Example forwarded_request_response :
  (λ x, (http.status x.1, map_to_list (http.sentHeader x.1), http.body x.1))
    <$> @serve sampleLib sampleWorld forwardedRequest
  = Some (200%Z, [("Content-Type", ["application/json"])],
          "{ip:8.8.8.8}" +:+ newline).
Proof. by vm_compute. Qed.

Example missing_database_is_logged :
  (λ x, (http.status x.1, x.2))
    <$> @serve sampleLib worldWithoutDB emptyForwardedRequest
  = Some (200%Z,
          ["Could not open GeoIP database: open GeoLite2-City.mmdb: no such file or directory"]).
Proof. by vm_compute. Qed.

Example ipv4_remote_addr :
  callerIP emptyForwardedRequest = Some "203.0.113.9"
  ∧ strippedOfPort (http.RemoteAddr emptyForwardedRequest) = "203.0.113.9".
Proof. by vm_compute. Qed.

Example split_examples :
  strings.Split "a:b:c" ":" = ["a"; "b"; "c"]
  ∧ strings.Split "" ":" = [""]
  ∧ strings.Split "abc" ":" = ["abc"]
  ∧ strings.Split "[::1]:80" ":" = ["["; ""; "1]"; "80"].
Proof. by vm_compute. Qed.

Example ip_examples :
  net.IP_String [xc0; xa8; x01; x0a] = "192.168.1.10"
  ∧ net.IP_String (net.v4InV6Prefix ++ [x0a; x00; x00; x01]) = "10.0.0.1"
  ∧ net.IP_String net.IPv6loopback = "::1"
  ∧ net.IsLoopback [x7f; x00; x00; x01] = true
  ∧ net.IsLoopback net.IPv6loopback = true
  ∧ net.IsLoopback [xc0; xa8; x01; x0a] = false
  ∧ net.To4 net.IPv6loopback = None.
Proof. by vm_compute. Qed.

(** * Further properties of the program *)

(** ** More about strings *)

Lemma HasPrefix_slice_to (n : nat) (s p : string) :
  strings.HasPrefix (strings.slice_to n s) p = true → strings.HasPrefix s p = true.
Proof.
  revert n s. induction p as [|c p IH]; intros n s; [done|].
  destruct n as [|n], s as [|a s]; simpl; try done.
  rewrite !andb_true_iff. intros [Hc Hp]. eauto.
Qed.

(** What stands before the first occurrence holds no occurrence. *)
Lemma Index_slice_to_first (s sep : string) (m : nat) :
  sep ≠ "" → strings.Index s sep = Some m →
  strings.Index (strings.slice_to m s) sep = None.
Proof.
  intros Hsep. revert m. induction s as [|c s IH]; intros m; rewrite Index_unfold.
  - destruct (strings.HasPrefix "" sep) eqn:Hp; [|done].
    intros [= <-]. simpl. by apply Index_empty.
  - destruct (strings.HasPrefix (String c s) sep) eqn:Hp.
    + intros [= <-]. simpl. by apply Index_empty.
    + destruct (strings.Index s sep) as [m'|] eqn:Hi; [|done].
      intros [= <-]. simpl strings.slice_to. rewrite Index_unfold.
      destruct (strings.HasPrefix (String c (strings.slice_to m' s)) sep) eqn:Hp'.
      * apply (HasPrefix_slice_to (S m') (String c s)) in Hp'. congruence.
      * by rewrite (IH m').
Qed.

(** The line that [log.Printf] writes for a format ending in [%v]. *)
Lemma log_Printf_v (text err : string) :
  plain text = true →
  log_Printf (text +:+ "%v") [err] = text +:+ err.
Proof.
  intros Hplain. unfold log_Printf. rewrite Sprintf_plain by done.
  simpl. by rewrite append_nil_r.
Qed.

(** ** [main] *)
Section Main.
Context {lib : Lib}.
Variable W : World.


End Main.

(** ** [getPublicIPInfo] *)
Section GeoLookup.
Context {lib : Lib}.
Variable W : World.

(** X2.  Whatever the database does, [getPublicIPInfo] writes nothing but
    the [ip_info] part of the record it returns, and [public_ip] is the
    input string itself, also when the string was parsed and found. *)
Theorem getPublicIPInfo_writes_only_ip_info (ip : string) :
  Request (getPublicIPInfo W ip).1 = zeroRequest
  ∧ Server (getPublicIPInfo W ip).1 = zeroServer
  ∧ System (getPublicIPInfo W ip).1 = zeroSystem
  ∧ PublicIP (IPInfo (getPublicIPInfo W ip).1) = ip.
Proof.
  unfold getPublicIPInfo.
  destruct (geoip2_Open W "GeoLite2-City.mmdb") as [db|e]; [|done].
  destruct (net_ParseIP ip) as [parsedIP|]; [|done].
  by destruct (geoip2.Reader_City db parsedIP).
Qed.

(** X3.  A call of [getPublicIPInfo] ends in one of two ways.  Either the
    lookup fails and the geo-record is empty; or the database opened, the
    string parsed and the lookup returned a record, and then the fields
    are copied from the record: the ISO code, the English country and city
    names (empty when the record has no English name), the coordinates
    and the postal code, and nothing is logged. *)
Theorem getPublicIPInfo_fails_or_copies_record (ip : string) :
  (geoLookupFails W ip
   ∧ IPInfo (getPublicIPInfo W ip).1 = emptyGeoRecord ip)
  ∨ (∃ db parsedIP record,
       geoip2_Open W "GeoLite2-City.mmdb" = Ok db
       ∧ net_ParseIP ip = Some parsedIP
       ∧ geoip2.Reader_City db parsedIP = Ok record
       ∧ IPInfo (getPublicIPInfo W ip).1
         = {| PublicIP := ip;
              CountryCode := geoip2.Country_IsoCode record;
              Country := default "" (geoip2.Country_Names record !! "en");
              City := default "" (geoip2.City_Names record !! "en");
              Latitude := geoip2.Location_Latitude record;
              Longitude := geoip2.Location_Longitude record;
              Organization := "";
              PostalCode := geoip2.Postal_Code record |}
       ∧ (getPublicIPInfo W ip).2 = []).
Proof.
  unfold geoLookupFails, getPublicIPInfo.
  destruct (geoip2_Open W "GeoLite2-City.mmdb") as [db|e] eqn:Hopen.
  - destruct (net_ParseIP ip) as [parsedIP|] eqn:Hparse.
    + destruct (geoip2.Reader_City db parsedIP) as [record|e] eqn:Hcity.
      * right. exists db, parsedIP, record. done.
      * left. split; [|done]. right. right. exists db, parsedIP, e. done.
    + left. split; [|done]. right. by left.
  - left. split; [|done]. left. by exists e.
Qed.

(** X4.  What [getPublicIPInfo] logs.  A database that cannot be opened
    is logged with the error text, before the string is even parsed; a
    string that does not parse is not logged; a lookup that returns an
    error is logged with the error text.  The error text is copied as it
    is. *)
Theorem getPublicIPInfo_log_lines (ip : string) :
  (∀ e, geoip2_Open W "GeoLite2-City.mmdb" = Err e →
        (getPublicIPInfo W ip).2 = ["Could not open GeoIP database: " +:+ e])
  ∧ (∀ db, geoip2_Open W "GeoLite2-City.mmdb" = Ok db →
           net_ParseIP ip = None →
           (getPublicIPInfo W ip).2 = [])
  ∧ (∀ db parsedIP e,
       geoip2_Open W "GeoLite2-City.mmdb" = Ok db →
       net_ParseIP ip = Some parsedIP →
       geoip2.Reader_City db parsedIP = Err e →
       (getPublicIPInfo W ip).2 = ["IP lookup error: " +:+ e]).
Proof.
  unfold getPublicIPInfo. repeat split.
  - intros e ->. simpl. f_equal.
    by apply (log_Printf_v "Could not open GeoIP database: ").
  - by intros db -> ->.
  - intros db parsedIP e -> -> ->. simpl. f_equal.
    by apply (log_Printf_v "IP lookup error: ").
Qed.

End GeoLookup.

(** ** The record that [connectionHandler] assembles *)
Section Record.
Context {lib : Lib}.
Variable W : World.

(** The whole record, part by part. *)
Lemma collectDetails_parts (r : http.Request) :
  ∃ ip,
    callerIP r = Some ip
    ∧ collectDetails W r
      = Some ({| Request :=
                   {| RemoteAddr := http.RemoteAddr r;
                      Host := http.Host r;
                      Method := http.Method r;
                      UserAgent := http.UserAgent r;
                      ForwardedFor :=
                        textproto.Get (http.Header r) "X-Forwarded-For";
                      Headers := flattenHeaders (http.Header r) |};
                 Server :=
                   {| Hostname := value_or "" (os_Hostname W);
                      ServerIP :=
                        serverIPLoop (value_or [] (net_InterfaceAddrs W)) "";
                      Interfaces := getNetworkInterfaces W |};
                 IPInfo := IPInfo (getPublicIPInfo W ip).1;
                 System :=
                   {| OS := {| Platform := runtime_GOOS W;
                               Arch := runtime_GOARCH W;
                               GoVersion := runtime_Version W;
                               CPUNum := runtime_NumCPU W;
                               Memory :=
                                 humanize_Bytes (runtime_MemStats_Sys W) |} |} |},
              (getPublicIPInfo W ip).2).
Proof.
  destruct (callerIP_Some r) as [ip Hip]. exists ip. split; [done|].
  unfold collectDetails. rewrite Hip. simpl.
  by destruct (getPublicIPInfo W ip).
Qed.

(** X5.  Without the database file every request is still answered with
    status 200; its geo-record is empty except for [public_ip], and the
    request leaves exactly one line in the log, the failure to open the
    database. *)
Theorem missing_database_degrades_every_request (r : http.Request) (e : error) :
  geoip2_Open W "GeoLite2-City.mmdb" = Err e →
  ∃ ip details w,
    callerIP r = Some ip
    ∧ collectDetails W r
      = Some (details, ["Could not open GeoIP database: " +:+ e])
    ∧ IPInfo details = emptyGeoRecord ip
    ∧ serve W r = Some (w, ["Could not open GeoIP database: " +:+ e])
    ∧ http.status w = http.StatusOK.
Proof.
  intros Hopen. destruct (collectDetails_parts r) as (ip & Hip & Hd).
  assert ((getPublicIPInfo W ip).2 = ["Could not open GeoIP database: " +:+ e]
          ∧ IPInfo (getPublicIPInfo W ip).1 = emptyGeoRecord ip) as [Hlog Hinfo].
  { unfold getPublicIPInfo. rewrite Hopen. simpl. split; [|done]. f_equal.
    by apply (log_Printf_v "Could not open GeoIP database: "). }
  rewrite Hlog in Hd. eexists ip, _, _. split; [done|]. split; [exact Hd|].
  split; [done|]. split; [by apply serve_eq|]. apply writeResponse_status.
Qed.

(** X6.  A non-empty [X-Forwarded-For] value is looked up as it is,
    whatever the remote address: [public_ip] equals [x_forwarded_for],
    also when the value lists several hops.  When the value does not parse
    as an IP address the rest of the geo-record is empty. *)
Theorem forwarded_for_is_looked_up_verbatim (r : http.Request) :
  textproto.Get (http.Header r) "X-Forwarded-For" ≠ "" →
  ∃ details logged,
    collectDetails W r = Some (details, logged)
    ∧ ForwardedFor (Request details)
      = textproto.Get (http.Header r) "X-Forwarded-For"
    ∧ PublicIP (IPInfo details) = ForwardedFor (Request details)
    ∧ (net_ParseIP (textproto.Get (http.Header r) "X-Forwarded-For") = None →
       IPInfo details
       = emptyGeoRecord (textproto.Get (http.Header r) "X-Forwarded-For")).
Proof.
  intros Hxff. destruct (collectDetails_parts r) as (ip & Hip & Hd).
  rewrite (callerIP_forwarded r Hxff) in Hip. injection Hip as <-.
  eexists _, _. split; [exact Hd|]. simpl. split; [done|]. split.
  - unfold getPublicIPInfo.
    destruct (geoip2_Open W "GeoLite2-City.mmdb") as [db|]; [|done].
    destruct (net_ParseIP _) as [parsedIP|]; [|done].
    by destruct (geoip2.Reader_City db parsedIP).
  - intros Hparse. unfold getPublicIPInfo. rewrite Hparse.
    by destruct (geoip2_Open W "GeoLite2-City.mmdb").
Qed.

(** X7.  Without a forwarded-for value, [public_ip] is the remote address
    up to its first colon: it holds no colon, and the remote address is
    either [public_ip] itself or [public_ip], a colon and a rest. *)
Theorem remote_addr_is_cut_at_first_colon (r : http.Request) :
  textproto.Get (http.Header r) "X-Forwarded-For" = "" →
  ∃ details logged,
    collectDetails W r = Some (details, logged)
    ∧ strings.Contains (PublicIP (IPInfo details)) ":" = false
    ∧ (http.RemoteAddr r = PublicIP (IPInfo details)
       ∨ ∃ rest, http.RemoteAddr r = PublicIP (IPInfo details) +:+ ":" +:+ rest).
Proof.
  intros Hxff. destruct (collectDetails_parts r) as (ip & Hip & Hd).
  eexists _, _. split; [exact Hd|]. simpl.
  assert (PublicIP (IPInfo (getPublicIPInfo W ip).1) = ip) as ->.
  { unfold getPublicIPInfo.
    destruct (geoip2_Open W "GeoLite2-City.mmdb") as [db|]; [|done].
    destruct (net_ParseIP ip) as [parsedIP|]; [|done].
    by destruct (geoip2.Reader_City db parsedIP). }
  unfold callerIP in Hip. rewrite Hxff, decide_True in Hip by done.
  rewrite Split_head in Hip by done. injection Hip as <-.
  destruct (strings.Index (http.RemoteAddr r) ":") as [m|] eqn:Hi.
  - split.
    + apply Contains_false. by apply Index_slice_to_first.
    + right. eexists. by apply Index_Some.
  - split; [by apply Contains_false | by left].
Qed.

(** X11.  When the hostname and both interface queries fail, the handler
    still answers with status 200, and the [server] part of its record is
    at its zero value: no hostname, no server IP, no interfaces. *)
Theorem failing_host_queries_leave_server_empty
    (r : http.Request) (e1 e2 e3 : error) :
  os_Hostname W = Err e1 →
  net_Interfaces W = Err e2 →
  net_InterfaceAddrs W = Err e3 →
  ∃ details logged w,
    collectDetails W r = Some (details, logged)
    ∧ Server details = zeroServer
    ∧ serve W r = Some (w, logged)
    ∧ http.status w = http.StatusOK.
Proof.
  intros Hhost Hifaces Haddrs.
  destruct (collectDetails_parts r) as (ip & Hip & Hd).
  eexists _, _, _. split; [exact Hd|]. split.
  - simpl. unfold getNetworkInterfaces. by rewrite Hhost, Hifaces, Haddrs.
  - split; [by apply serve_eq|]. apply writeResponse_status.
Qed.

(** X14.  The [server] and [system] parts of the record do not depend on
    the request, and the geo-record and the log depend on the request only
    through the caller IP: two requests with the same caller IP get the
    same geo-record and log the same lines. *)
Theorem record_depends_on_request_through_caller_ip (r r' : http.Request) :
  ∃ details logged details' logged',
    collectDetails W r = Some (details, logged)
    ∧ collectDetails W r' = Some (details', logged')
    ∧ Server details = Server details'
    ∧ System details = System details'
    ∧ (callerIP r = callerIP r' →
       IPInfo details = IPInfo details' ∧ logged = logged').
Proof.
  destruct (collectDetails_parts r) as (ip & Hip & Hd).
  destruct (collectDetails_parts r') as (ip' & Hip' & Hd').
  eexists _, _, _, _. split; [exact Hd|]. split; [exact Hd'|].
  simpl. split; [done|]. split; [done|].
  intros Heq. rewrite Hip, Hip' in Heq. by injection Heq as ->.
Qed.

End Record.

(** ** [getNetworkInterfaces] *)

Lemma getNetworkInterfaces_lookup (W : World) (ifaces : list net.Interface)
    (name : string) :
  net_Interfaces W = Ok ifaces →
  getNetworkInterfaces W !! name = last (addressesOf name ifaces).
Proof.
  intros Hifaces. unfold getNetworkInterfaces. rewrite Hifaces.
  rewrite outer_loop_lookup. by destruct (last (addressesOf name ifaces)).
Qed.

Lemma elem_of_addressesOf (v name : string) (ifaces : list net.Interface) :
  v ∈ addressesOf name ifaces
  ↔ ∃ iface addrs addr,
      iface ∈ ifaces ∧ net.Name iface = name
      ∧ net.Addrs iface = Ok addrs ∧ addr ∈ addrs
      ∧ v = net.Addr_String addr.
Proof.
  induction ifaces as [|i ifaces IH].
  - split; [by intros ?%elem_of_nil|].
    by intros (iface & _ & _ & ?%elem_of_nil & _).
  - unfold addressesOf. simpl flat_map. fold (addressesOf name ifaces).
    rewrite elem_of_app, IH. split.
    + intros [Hv | (iface & addrs & addr & Hin & Hrest)].
      * case_decide as Hname; [|by apply elem_of_nil in Hv].
        destruct (net.Addrs i) as [addrs|] eqn:Haddrs; [|by apply elem_of_nil in Hv].
        apply list_elem_of_fmap in Hv as (addr & -> & Haddr).
        exists i, addrs, addr. repeat split; try done. apply elem_of_cons. by left.
      * exists iface, addrs, addr. split; [|done]. apply elem_of_cons. by right.
    + intros (iface & addrs & addr & Hin & Hname & Haddrs & Haddr & ->).
      apply elem_of_cons in Hin as [->|Hin].
      * left. rewrite decide_True, Haddrs by done. by apply list_elem_of_fmap_2.
      * right. by exists iface, addrs, addr.
Qed.

Lemma addressesOf_Permutation (name : string) (ifaces ifaces' : list net.Interface) :
  ifaces ≡ₚ ifaces' → NoDup (net.Name <$> ifaces) →
  addressesOf name ifaces = addressesOf name ifaces'.
Proof.
  intros Hperm Hnodup.
  assert (NoDup (net.Name <$> ifaces')) as Hnodup' by (by rewrite <- Hperm).
  destruct (decide (name ∈ net.Name <$> ifaces)) as [Hin|Hout].
  - apply list_elem_of_fmap in Hin as (iface & -> & Hin).
    rewrite (addressesOf_unique ifaces iface) by done.
    rewrite (addressesOf_unique ifaces' iface); [done..|by rewrite <- Hperm].
  - rewrite (addressesOf_other name ifaces) by done.
    rewrite (addressesOf_other name ifaces'); [done|by rewrite <- Hperm].
Qed.

(** X8.  The mapping has an entry for a name exactly when some listed
    interface of that name enumerated at least one address, and every
    entry is the text of an address of an interface of that name.  So an
    interface without addresses, like one whose enumeration failed, adds
    no entry. *)
Theorem interfaces_entries_are_enumerated_addresses
    (W : World) (ifaces : list net.Interface) :
  net_Interfaces W = Ok ifaces →
  (∀ name,
     is_Some (getNetworkInterfaces W !! name)
     ↔ ∃ iface addrs,
         iface ∈ ifaces ∧ net.Name iface = name
         ∧ net.Addrs iface = Ok addrs ∧ addrs ≠ [])
  ∧ (∀ name v,
       getNetworkInterfaces W !! name = Some v →
       ∃ iface addrs addr,
         iface ∈ ifaces ∧ net.Name iface = name
         ∧ net.Addrs iface = Ok addrs ∧ addr ∈ addrs
         ∧ v = net.Addr_String addr).
Proof.
  intros Hifaces. split.
  - intros name. rewrite (getNetworkInterfaces_lookup W ifaces) by done. split.
    + intros [v Hv]. apply last_Some_elem_of, elem_of_addressesOf in Hv
        as (iface & addrs & addr & Hin & Hname & Haddrs & Haddr & _).
      exists iface, addrs. repeat split; try done.
      intros ->. by apply elem_of_nil in Haddr.
    + intros (iface & addrs & Hin & Hname & Haddrs & Hne).
      destruct addrs as [|addr addrs]; [done|].
      destruct (last (addressesOf name ifaces)) as [v|] eqn:Hlast; [done|].
      apply last_None in Hlast.
      assert (net.Addr_String addr ∈ addressesOf name ifaces) as Helem.
      { apply elem_of_addressesOf. exists iface, (addr :: addrs), addr.
        repeat split; try done. apply elem_of_cons. by left. }
      rewrite Hlast in Helem. by apply elem_of_nil in Helem.
  - intros name v. rewrite (getNetworkInterfaces_lookup W ifaces) by done.
    intros Hv. by apply last_Some_elem_of, elem_of_addressesOf in Hv.
Qed.

(** X9.  When no interface name is repeated, the mapping does not depend
    on the order in which the interfaces are listed: two hosts that list
    the same interfaces in different orders get the same mapping.  (The
    order of the addresses of one interface does matter.) *)
Theorem interfaces_independent_of_listing_order
    (W W' : World) (ifaces ifaces' : list net.Interface) :
  net_Interfaces W = Ok ifaces →
  net_Interfaces W' = Ok ifaces' →
  ifaces ≡ₚ ifaces' →
  NoDup (net.Name <$> ifaces) →
  getNetworkInterfaces W = getNetworkInterfaces W'.
Proof.
  intros Hifaces Hifaces' Hperm Hnodup. apply map_eq. intros name.
  rewrite (getNetworkInterfaces_lookup W ifaces) by done.
  rewrite (getNetworkInterfaces_lookup W' ifaces') by done.
  by rewrite (addressesOf_Permutation name ifaces ifaces').
Qed.

(** ** The server IP *)

Lemma To4_length (ip p4 : net.IP) : net.To4 ip = Some p4 → length p4 = 4%nat.
Proof.
  unfold net.To4. destruct (length ip =? 4)%nat eqn:H4.
  - intros [= <-]. by apply Nat.eqb_eq.
  - destruct (length ip =? 16)%nat eqn:H16; simpl; [|done].
    apply Nat.eqb_eq in H16.
    destruct (net.isZeros (take 10 ip) && net.byteIs ip 10 xff && net.byteIs ip 11 xff);
      [|done].
    intros [= <-]. rewrite length_drop. lia.
Qed.

(** The loop leaves the server IP as it was or sets it to the text of an
    address of the list that is not loopback and has a 4-byte form. *)
Lemma serverIPLoop_result (addrs : list net.Addr) (serverIP : string) :
  serverIPLoop addrs serverIP = serverIP
  ∨ ∃ addr ipnet p4,
      addr ∈ addrs ∧ net.Addr_IPNet addr = Some ipnet
      ∧ net.IsLoopback (net.IPNet_IP ipnet) = false
      ∧ net.To4 (net.IPNet_IP ipnet) = Some p4
      ∧ serverIPLoop addrs serverIP = net.IP_String (net.IPNet_IP ipnet).
Proof.
  induction addrs as [|addr addrs IH]; [by left|]. simpl.
  assert (serverIPLoop addrs serverIP = serverIP
          ∨ ∃ addr0 ipnet p4,
              addr0 ∈ addr :: addrs ∧ net.Addr_IPNet addr0 = Some ipnet
              ∧ net.IsLoopback (net.IPNet_IP ipnet) = false
              ∧ net.To4 (net.IPNet_IP ipnet) = Some p4
              ∧ serverIPLoop addrs serverIP = net.IP_String (net.IPNet_IP ipnet))
    as Hrest.
  { destruct IH as [IH | (a & ipnet & p4 & Hin & Hrest)]; [by left|].
    right. exists a, ipnet, p4. split; [|done]. apply elem_of_cons. by right. }
  destruct (net.Addr_IPNet addr) as [ipnet|] eqn:Hnet; [|done].
  destruct (net.IsLoopback (net.IPNet_IP ipnet)) eqn:Hlo; simpl; [done|].
  destruct (net.To4 (net.IPNet_IP ipnet)) as [p4|] eqn:H4; [|done].
  right. exists addr, ipnet, p4. repeat split; try done. apply elem_of_cons. by left.
Qed.

Section ServerIP.
Context {lib : Lib}.
Variable W : World.

(** X10.  [server_ip] is either empty or four decimal numbers separated by
    dots of which the first is not 127: the handler never reports an
    address of the loopback network, and never an IPv6 text. *)
Theorem server_ip_is_empty_or_dotted_non_loopback (r : http.Request) :
  ∃ details logged,
    collectDetails W r = Some (details, logged)
    ∧ (ServerIP (Server details) = ""
       ∨ ∃ a b c d : byte,
           a ≠ x7f
           ∧ ServerIP (Server details)
             = pretty (Byte.to_N a) +:+ "." +:+ pretty (Byte.to_N b) +:+ "."
               +:+ pretty (Byte.to_N c) +:+ "." +:+ pretty (Byte.to_N d)).
Proof.
  destruct (collectDetails_parts W r) as (ip & Hip & Hd).
  eexists _, _. split; [exact Hd|]. simpl.
  destruct (serverIPLoop_result (value_or [] (net_InterfaceAddrs W)) "")
    as [-> | (addr & ipnet & p4 & _ & _ & Hlo & H4 & ->)]; [by left|].
  right. rewrite (IP_String_To4 _ _ H4).
  pose proof (To4_length _ _ H4) as Hlen.
  unfold net.IsLoopback in Hlo. rewrite H4 in Hlo.
  destruct p4 as [|a [|b [|c [|d [|? ?]]]]]; try done.
  exists a, b, c, d. split; [|done].
  intros ->. by vm_compute in Hlo.
Qed.

End ServerIP.

(** ** The response when the record cannot be encoded *)
Section Encoding.
Context {lib : Lib}.
Variable W : World.

Lemma writeResponse_sentHeader (r : http.Request) (details : ConnectionDetails) :
  http.sentHeader (http.finishRequest (writeResponse http.newResponse r details))
  = {["Content-Type" := [if isJSON r then "application/json" else "text/html"]]}.
Proof.
  unfold writeResponse. destruct (isJSON r).
  - unfold json_Encode. by destruct (json_Marshal details).
  - done.
Qed.

Lemma writeResponse_json_error (r : http.Request) (details : ConnectionDetails)
    (e : error) :
  isJSON r = true → json_Marshal details = Err e →
  http.body (http.finishRequest (writeResponse http.newResponse r details)) = "".
Proof.
  intros Hjson Herr. unfold writeResponse, json_Encode. by rewrite Hjson, Herr.
Qed.

Lemma writeResponse_html_error (r : http.Request) (details : ConnectionDetails)
    (e : error) :
  isJSON r = false → json_MarshalIndent details "" "  " = Err e →
  http.body (http.finishRequest (writeResponse http.newResponse r details))
  = htmlHead +:+ "<pre></pre>" +:+ htmlTail.
Proof.
  intros Hjson Herr. unfold writeResponse, http.Fprintf.
  rewrite Hjson, Herr. simpl value_or.
  set (w := http.Header_Set http.newResponse "Content-Type" "text/html").
  destruct (Write_status w (fmt.Sprintf htmlTemplate [""]) eq_refl)
    as (_ & Hwrote & _ & Hbody).
  rewrite finishRequest_written by done.
  rewrite Hbody, Sprintf_htmlTemplate. done.
Qed.

(** X12.  The handler ignores the errors of the JSON encoders, and the
    answer has status 200 all the same.  When the record cannot be encoded,
    a JSON response has the JSON content type and an empty body, and an
    HTML response is the page with nothing between [<pre>] and [</pre>]. *)
Theorem encoding_failure_still_answers_200 (r : http.Request) :
  ∃ details logged w,
    collectDetails W r = Some (details, logged)
    ∧ serve W r = Some (w, logged)
    ∧ http.status w = http.StatusOK
    ∧ (wantsJSON r →
       ∀ e, json_Marshal details = Err e →
            http.body w = ""
            ∧ http.sentHeader w !! "Content-Type" = Some ["application/json"])
    ∧ (¬ wantsJSON r →
       ∀ e, json_MarshalIndent details "" "  " = Err e →
            http.body w = htmlHead +:+ "<pre></pre>" +:+ htmlTail
            ∧ http.sentHeader w !! "Content-Type" = Some ["text/html"]).
Proof.
  destruct (collectDetails_parts W r) as (ip & Hip & Hd).
  eexists _, _, _. split; [exact Hd|]. split; [by apply serve_eq|].
  split; [apply writeResponse_status|].
  rewrite writeResponse_sentHeader. split.
  - intros Hjson%isJSON_spec e Herr. rewrite Hjson. split.
    + by apply (writeResponse_json_error _ _ e).
    + apply lookup_singleton_eq.
  - intros Hhtml e Herr.
    assert (isJSON r = false) as Hjson.
    { destruct (isJSON r) eqn:H; [|done]. by apply isJSON_spec in H. }
    rewrite Hjson. split.
    + by apply (writeResponse_html_error _ _ e).
    + apply lookup_singleton_eq.
Qed.

(** X13.  The only header the handler sets is [Content-Type], with the
    single value [application/json] or [text/html]: no character set, no
    caching header, nothing else. *)
Theorem handler_sets_only_content_type (r : http.Request) :
  ∃ w logged,
    serve W r = Some (w, logged)
    ∧ (http.sentHeader w = {["Content-Type" := ["application/json"]]}
       ∨ http.sentHeader w = {["Content-Type" := ["text/html"]]}).
Proof.
  destruct (collectDetails_parts W r) as (ip & Hip & Hd).
  eexists _, _. split; [by apply serve_eq|].
  rewrite writeResponse_sentHeader. destruct (isJSON r); [by left | by right].
Qed.

End Encoding.

(** ** The further properties on the sample hosts *)

(** X5, on the host without the database file. *)
Lemma missing_database_degrades_every_request_witness :
  ∃ ip details w,
    callerIP emptyForwardedRequest = Some ip
    ∧ @collectDetails sampleLib worldWithoutDB emptyForwardedRequest
      = Some (details,
              ["Could not open GeoIP database: "
                 +:+ "open GeoLite2-City.mmdb: no such file or directory"])
    ∧ IPInfo details = emptyGeoRecord ip
    ∧ @serve sampleLib worldWithoutDB emptyForwardedRequest
      = Some (w,
              ["Could not open GeoIP database: "
                 +:+ "open GeoLite2-City.mmdb: no such file or directory"])
    ∧ http.status w = http.StatusOK.
Proof.
  apply (@missing_database_degrades_every_request sampleLib worldWithoutDB
           emptyForwardedRequest
           "open GeoLite2-City.mmdb: no such file or directory").
  reflexivity.
Defined.

(** X6, at a request that passed two proxies. *)
Lemma forwarded_for_is_looked_up_verbatim_witness :
  ∃ details logged,
    @collectDetails sampleLib sampleWorld hopsRequest = Some (details, logged)
    ∧ ForwardedFor (Request details)
      = textproto.Get (http.Header hopsRequest) "X-Forwarded-For"
    ∧ PublicIP (IPInfo details) = ForwardedFor (Request details)
    ∧ (@net_ParseIP sampleLib
         (textproto.Get (http.Header hopsRequest) "X-Forwarded-For") = None →
       IPInfo details
       = emptyGeoRecord (textproto.Get (http.Header hopsRequest) "X-Forwarded-For")).
Proof.
  apply (@forwarded_for_is_looked_up_verbatim sampleLib sampleWorld hopsRequest).
  vm_compute. discriminate.
Defined.

(** X7, at the request of an IPv6 client. *)
Lemma remote_addr_is_cut_at_first_colon_witness :
  ∃ details logged,
    @collectDetails sampleLib sampleWorld ipv6Request = Some (details, logged)
    ∧ strings.Contains (PublicIP (IPInfo details)) ":" = false
    ∧ (http.RemoteAddr ipv6Request = PublicIP (IPInfo details)
       ∨ ∃ rest,
           http.RemoteAddr ipv6Request
           = PublicIP (IPInfo details) +:+ ":" +:+ rest).
Proof.
  apply (@remote_addr_is_cut_at_first_colon sampleLib sampleWorld ipv6Request).
  reflexivity.
Defined.

(** X8, on the sample host. *)
Lemma interfaces_entries_are_enumerated_addresses_witness :
  (∀ name,
     is_Some (getNetworkInterfaces sampleWorld !! name)
     ↔ ∃ iface addrs,
         iface ∈ sampleInterfaces ∧ net.Name iface = name
         ∧ net.Addrs iface = Ok addrs ∧ addrs ≠ [])
  ∧ (∀ name v,
       getNetworkInterfaces sampleWorld !! name = Some v →
       ∃ iface addrs addr,
         iface ∈ sampleInterfaces ∧ net.Name iface = name
         ∧ net.Addrs iface = Ok addrs ∧ addr ∈ addrs
         ∧ v = net.Addr_String addr).
Proof.
  apply (interfaces_entries_are_enumerated_addresses sampleWorld sampleInterfaces).
  reflexivity.
Defined.

(** X9, on the sample host and the host that lists the same interfaces in
    the opposite order. *)
Lemma interfaces_independent_of_listing_order_witness :
  getNetworkInterfaces sampleWorld = getNetworkInterfaces worldReversed.
Proof.
  apply (interfaces_independent_of_listing_order sampleWorld worldReversed
           sampleInterfaces (reverse sampleInterfaces)).
  - reflexivity.
  - reflexivity.
  - symmetry. apply reverse_Permutation.
  - apply (bool_decide_unpack (NoDup (net.Name <$> sampleInterfaces))).
    vm_compute. exact I.
Defined.

(** X11, on the host where every query fails. *)
Lemma failing_host_queries_leave_server_empty_witness :
  ∃ details logged w,
    @collectDetails sampleLib worldAllFailing forwardedRequest
    = Some (details, logged)
    ∧ Server details = zeroServer
    ∧ @serve sampleLib worldAllFailing forwardedRequest = Some (w, logged)
    ∧ http.status w = http.StatusOK.
Proof.
  apply (@failing_host_queries_leave_server_empty sampleLib worldAllFailing
           forwardedRequest
           "hostname: operation not permitted"
           "route ip+net: netlinkrib: permission denied"
           "route ip+net: netlinkrib: permission denied");
    reflexivity.
Defined.

Example main_port_examples :
  @main sampleLib sampleWorld listenOk
  = Some ("Server starting on port 3100" +:+ newline, Serving ":3100" sampleMux)
  ∧ (λ x, x.1) <$> @main sampleLib worldPort8080 listenOk
    = Some ("Server starting on port 8080" +:+ newline)
  ∧ @main sampleLib worldPort8080 listenInUse
    = Some ("Server starting on port 8080" +:+ newline,
            Exited 1 ["listen tcp :8080: bind: address already in use"]).
Proof. repeat split; reflexivity. Qed.

Example server_examples :
  @server sampleLib sampleWorld listenOk (sampleRequest "GET" "//status" "203.0.113.9:51234" [])
  = Some (http.Moved "/status")
  ∧ @server sampleLib sampleWorld listenOk (sampleRequest "GET" "/a/../b" "203.0.113.9:51234" [])
    = Some (http.Moved "/b")
  ∧ @server sampleLib sampleWorld listenOk postStatusRequest
    = Some (http.Ran "/" (@serve sampleLib sampleWorld postStatusRequest))
  ∧ @server sampleLib sampleWorld listenInUse postStatusRequest = None.
Proof. repeat split; reflexivity. Qed.

Example clean_examples :
  path.Clean "abc//def//ghi" = "abc/def/ghi"
  ∧ path.Clean "/abc/def/../../.." = "/"
  ∧ path.Clean "../../abc" = "../../abc"
  ∧ path.Clean "" = "."
  ∧ http.cleanPath "" = "/"
  ∧ http.cleanPath "/a/./b/" = "/a/b/"
  ∧ http.cleanPath "//status" = "/status".
Proof. by vm_compute. Qed.

Example read_request_examples :
  http.readRequest "GET" "/" "203.0.113.9:51234" curlLines = Some curlRequest
  ∧ (λ r, map_to_list (http.Header r))
      <$> http.readRequest "GET" "/" "203.0.113.9:51234"
            [("host", "example.org"); ("via", "1.1 a"); ("Via", "1.1 b")]
    = Some [("Via", ["1.1 a"; "1.1 b"])]
  ∧ http.readRequest "GET" "/" "203.0.113.9:51234" [("Accept", "*/*")] = None.
Proof. by vm_compute. Qed.

Example unencodable_record_responses :
  (λ x, (http.status x.1, map_to_list (http.sentHeader x.1), http.body x.1))
    <$> @serve failingJSONLib sampleWorld forwardedRequest
  = Some (200%Z, [("Content-Type", ["application/json"])], "")
  ∧ (λ x, (http.status x.1, http.body x.1))
      <$> @serve failingJSONLib sampleWorld emptyForwardedRequest
    = Some (200%Z, htmlHead +:+ "<pre></pre>" +:+ htmlTail).
Proof. by vm_compute. Qed.

Example hops_request_report :
  (λ x, (IPInfo x.1, x.2)) <$> @collectDetails sampleLib sampleWorld hopsRequest
  = Some (emptyGeoRecord "203.0.113.7, 10.0.0.1", []).
Proof. by vm_compute. Qed.

Example all_failing_host_report :
  (λ x, (Server x.1, PublicIP (IPInfo x.1), CountryCode (IPInfo x.1)))
    <$> @collectDetails sampleLib worldAllFailing forwardedRequest
  = Some (zeroServer, "8.8.8.8", "US").
Proof. by vm_compute. Qed.

(** ** The forwarded address that is found *)
Section Found.
Context {lib : Lib}.
Variable W : World.

(** X15.  When the forwarded-for value parses, the database opens and the
    lookup returns a record, the report shows the forwarded value as
    [public_ip] with the fields of that record, nothing is logged, and the
    status is 200. *)
Theorem forwarded_address_found_is_reported
    (r : http.Request) (db : geoip2.Reader) (parsedIP : net.IP)
    (record : geoip2.City) :
  textproto.Get (http.Header r) "X-Forwarded-For" ≠ "" →
  geoip2_Open W "GeoLite2-City.mmdb" = Ok db →
  net_ParseIP (textproto.Get (http.Header r) "X-Forwarded-For") = Some parsedIP →
  geoip2.Reader_City db parsedIP = Ok record →
  ∃ details w,
    collectDetails W r = Some (details, [])
    ∧ IPInfo details
      = {| PublicIP := textproto.Get (http.Header r) "X-Forwarded-For";
           CountryCode := geoip2.Country_IsoCode record;
           Country := default "" (geoip2.Country_Names record !! "en");
           City := default "" (geoip2.City_Names record !! "en");
           Latitude := geoip2.Location_Latitude record;
           Longitude := geoip2.Location_Longitude record;
           Organization := "";
           PostalCode := geoip2.Postal_Code record |}
    ∧ serve W r = Some (w, [])
    ∧ http.status w = http.StatusOK.
Proof.
  intros Hxff Hopen Hparse Hcity.
  destruct (collectDetails_parts W r) as (ip & Hip & Hd).
  rewrite (callerIP_forwarded r Hxff) in Hip. injection Hip as <-.
  assert (getPublicIPInfo W (textproto.Get (http.Header r) "X-Forwarded-For")
          = ({| Request := zeroRequest; Server := zeroServer;
                IPInfo :=
                  {| PublicIP := textproto.Get (http.Header r) "X-Forwarded-For";
                     CountryCode := geoip2.Country_IsoCode record;
                     Country := default "" (geoip2.Country_Names record !! "en");
                     City := default "" (geoip2.City_Names record !! "en");
                     Latitude := geoip2.Location_Latitude record;
                     Longitude := geoip2.Location_Longitude record;
                     Organization := "";
                     PostalCode := geoip2.Postal_Code record |};
                System := zeroSystem |}, [])) as Hgeo.
  { unfold getPublicIPInfo. by rewrite Hopen, Hparse, Hcity. }
  rewrite Hgeo in Hd. simpl in Hd.
  eexists _, _. split; [exact Hd|]. split; [done|].
  split; [by apply serve_eq|]. apply writeResponse_status.
Qed.

End Found.

(** X15, at the forwarded request on the sample host. *)
Lemma forwarded_address_found_is_reported_witness :
  ∃ details w,
    @collectDetails sampleLib sampleWorld forwardedRequest = Some (details, [])
    ∧ IPInfo details
      = {| PublicIP := textproto.Get (http.Header forwardedRequest) "X-Forwarded-For";
           CountryCode := geoip2.Country_IsoCode sampleCity;
           Country := default "" (geoip2.Country_Names sampleCity !! "en");
           City := default "" (geoip2.City_Names sampleCity !! "en");
           Latitude := geoip2.Location_Latitude sampleCity;
           Longitude := geoip2.Location_Longitude sampleCity;
           Organization := "";
           PostalCode := geoip2.Postal_Code sampleCity |}
    ∧ @serve sampleLib sampleWorld forwardedRequest = Some (w, [])
    ∧ http.status w = http.StatusOK.
Proof.
  apply (@forwarded_address_found_is_reported sampleLib sampleWorld
           forwardedRequest sampleReader [x08; x08; x08; x08] sampleCity).
  - vm_compute. discriminate.
  - reflexivity.
  - reflexivity.
  - reflexivity.
Defined.
